(** * orlop: the gRPC client bootstrap ([Connect] / [ConnectContext])

    A shallow embedding of the client bootstrap of package [orlop] and of the
    generated constants of package [version].  The bootstrap talks to four
    collaborators (the tracer, the logger, the TLS resolver and the gRPC
    dialler); every call to one of them is recorded as an [Event], and what
    the two fallible collaborators and the dialler answer is given by a
    [World].  The Go body is written in a small monad that carries the event
    trace and Go's early [return]. *)

From Stdlib Require Import List String Ascii Strings.Byte ZArith Bool Lia.
Import ListNotations.
Local Open Scope string_scope.
Local Open Scope list_scope.
Local Open Scope Z_scope.

(** ** Package version (src/version/version_gen.go) *)

Module version.
Definition Name : string := "orlop".
Definition Description : string := "Orlop is the base deck of the ship".
Definition ReleaseName : string := "dimpled trilobite".
Definition Version : string := "0.0.0".
Definition Prerelease : string := "dev".

(** [String()]; [runtime.GOOS], [runtime.GOARCH] and [runtime.Version()]
    belong to the platform and are taken as arguments. *)
Definition String (GOOS GOARCH runtime_Version : string) : string :=
  let s := (GOOS ++ " " ++ GOARCH ++ " " ++ runtime_Version)%string in
  if negb (Prerelease =? "")%string
  then (Version ++ "-" ++ Prerelease ++ " " ++ s)%string
  else (Version ++ " " ++ s)%string.
End version.

(** [fmt.Sprintf("%s/%s", a, b)] on two strings. *)
Definition Sprintf_s_slash_s (a b : string) : string :=
  (a ++ "/" ++ b)%string.

(** ** Data model *)

(** Errors.  Package [orlop/errors] is imported by the bootstrap, which only
    builds errors with [errors.New] and [errors.Wrap]; both are kept as
    constructors, so no message formatting is assumed.  [CollaboratorError]
    stands for an error value handed back by a collaborator. *)
Inductive error : Type :=
| errors_New (msg : string)
| errors_Wrap (cause : error) (msg : string)
| CollaboratorError (what : string).

(** The text an error was built or wrapped with at its outermost layer. *)
Definition error_text (e : error) : string :=
  match e with
  | errors_New m => m
  | errors_Wrap _ m => m
  | CollaboratorError m => m
  end.

(** [ends_with suffix s]: [s] ends with [suffix]. *)
Definition ends_with (suffix s : string) : bool :=
  let n := String.length s in
  let k := String.length suffix in
  (k <=? n)%nat && String.eqb (String.substring (n - k) k s) suffix.

(** [context.Context], as the tree of derivations the code builds:
    [tracer.Start] derives a child carrying the span, [context.WithTimeout] a
    child carrying a timeout (a [time.Duration], in nanoseconds). *)
Inductive Context : Type :=
| Background
| WithValue (parent : Context) (key val : string)
| WithSpan (parent : Context) (name : string)
| WithTimeout (parent : Context) (d : Z).

(** The tightest timeout a context carries, if any: the dial that receives
    the context is cancelled no later than this long after the derivation. *)
Fixpoint timeout_bound (c : Context) : option Z :=
  match c with
  | Background => None
  | WithValue p _ _ => timeout_bound p
  | WithSpan p _ => timeout_bound p
  | WithTimeout p d =>
      match timeout_bound p with
      | None => Some d
      | Some b => Some (Z.min d b)
      end
  end.

(** Modelled from the spec: the configuration interfaces [HasKeyConfig],
    [HasTLSConfig], [HasTokenConfig], [HasClientConfig] and [HasVaultConfig]
    are declared outside the bootstrap file.  Each is a record whose fields
    are the getters the bootstrap calls; the spec lists the surface: URL,
    TLS-enabled flag and secret descriptors, token source (shared
    id/file/secret-bytes), buffer, window and message sizes, minimum and
    overall connect timeout, block flag and user-agent override. *)
Record KeyConfig : Type := {
  GetID : string;
  GetFile : string;
  GetSecret : list byte
}.

Record TLSConfig : Type := {
  GetEnabled : bool;
  GetDescriptors : list KeyConfig
}.

Record TokenConfig : Type := {
  GetShared : KeyConfig
}.

Record VaultConfig : Type := {
  GetAddress : string
}.

(** Sizes are Go [int]/[int32] and the two timeouts [time.Duration]; the
    bootstrap only compares them with zero and passes them on, so they are
    integers here. *)
Record ClientConfig : Type := {
  GetURL : string;
  GetTLS : TLSConfig;
  GetToken : TokenConfig;
  GetWriteBufferSize : Z;
  GetReadBufferSize : Z;
  GetInitialWindowSize : Z;
  GetInitialConnWindowSize : Z;
  GetMaxCallRecvMsgSize : Z;
  GetMaxCallSendMsgSize : Z;
  GetMinConnectTimeout : Z;
  GetBlock : bool;
  GetConnTimeout : Z;
  GetUserAgent : string
}.

(** The material the TLS resolver hands back ([*tls.Config]) and the channel
    the dialler hands back ([*grpc.ClientConn]); both opaque. *)
Inductive tls_Config : Type := TLSMaterial (fingerprint : string).
Inductive ClientConn : Type := Channel (target : string) (id : nat).

Inductive TransportCredentials : Type :=
| credentials_NewTLS (t : tls_Config).

Inductive Interceptor : Type :=
| otelgrpc_UnaryClientInterceptor
| otelgrpc_StreamClientInterceptor.

Inductive CallOption : Type :=
| MaxCallRecvMsgSize (n : Z)
| MaxCallSendMsgSize (n : Z).

Record ConnectParams : Type := { MinConnectTimeout : Z }.

(** The function literal stored in [SharedContextCredentials.tokenProvider]:
    it captures [shared] and [vault] and nothing else. *)
Record TokenProviderClosure : Type := {
  captured_shared : KeyConfig;
  captured_vault : VaultConfig
}.

Inductive PerRPCCredentials : Type :=
| ContextCredentials
| SharedContextCredentials (tokenProvider : TokenProviderClosure).

Inductive DialOption : Type :=
| WithUnaryInterceptor (i : Interceptor)
| WithStreamInterceptor (i : Interceptor)
| WithTransportCredentials (c : TransportCredentials)
| WithInsecure
| WithPerRPCCredentials (c : PerRPCCredentials)
| WithWriteBufferSize (n : Z)
| WithReadBufferSize (n : Z)
| WithInitialWindowSize (n : Z)
| WithInitialConnWindowSize (n : Z)
| WithDefaultCallOptions (cos : list CallOption)
| WithConnectParams (p : ConnectParams)
| WithBlock
| WithUserAgent (ua : string).

(** [logrus.Fields]: the key/value pairs of the map literal, in source
    order. *)
Inductive FieldValue : Type :=
| FString (s : string)
| FInt (n : Z)
| FBool (b : bool).

Definition Fields : Type := list (string * FieldValue).

Record Span : Type := { span_name : string }.

(** ** Collaborators *)

(** One constructor per call that leaves the bootstrap. *)
Inductive Event : Type :=
| EvSpanStart (name : string)
| EvSpanRecordError (s : Span) (e : error)
| EvSpanEnd (s : Span)
| EvNewClientTLSConfig (ctx : Context) (tls : TLSConfig) (vault : VaultConfig)
| EvLoadKey (ctx : Context) (key : KeyConfig) (vault : VaultConfig)
            (purpose : string)
| EvLogError (e : error) (msg : string)
| EvLogTrace (ctx : Context) (fields : Fields) (msg : string)
| EvDialContext (ctx : Context) (target : string) (opts : list DialOption).

(** What the fallible collaborators answer. *)
Record World : Type := {
  NewClientTLSConfig_result :
    Context -> TLSConfig -> VaultConfig -> tls_Config + error;
  LoadKey_result :
    Context -> KeyConfig -> VaultConfig -> string -> list byte + error;
  DialContext_result :
    Context -> string -> list DialOption -> ClientConn + error
}.

(** ** The monad of a Go function body

    A computation yields its trace and either the value the enclosing
    function has returned ([inl], Go's [return]) or the value of the
    statement ([inr]). *)
Definition M (R A : Type) : Type := list Event * (R + A).

Definition ret {R A} (a : A) : M R A := ([], inr a).

Definition Return {R A} (r : R) : M R A := ([], inl r).

Definition bind {R A B} (m : M R A) (f : A -> M R B) : M R B :=
  match m with
  | (t, inl r) => (t, inl r)
  | (t, inr a) => let '(t', x) := f a in (t ++ t', x)
  end.

Definition emit {R} (e : Event) : M R unit := ([e], inr tt).

Notation "x <- m ;; k" := (bind m (fun x => k))
  (at level 61, m at next level, right associativity).
Notation "' p <- m ;; k" := (bind m (fun x => match x with p => k end))
  (at level 61, p pattern, m at next level, right associativity).
Notation "m ;;; k" := (bind m (fun _ => k))
  (at level 61, right associativity).

(** [defer deferred; rest]: the deferred call runs when the function
    returns, whichever [return] is taken in [rest]. *)
Definition defer {R A} (deferred : M unit unit) (rest : M R A) : M R A :=
  (fst rest ++ fst deferred, snd rest).

(** A function with body [body]: what it returns, and its trace. *)
Definition func {R} (body : M R R) : list Event * R :=
  (fst body, match snd body with inl r => r | inr r => r end).

(** *** Calls to the collaborators *)

(** [tracer.Start(ctx, name)]. *)
Definition tracer_Start {R} (ctx : Context) (name : string)
  : M R (Context * Span) :=
  emit (EvSpanStart name) ;;;
  ret (WithSpan ctx name, {| span_name := name |}).

(** [span.RecordError(ctx, err)]. *)
Definition span_RecordError {R} (s : Span) (ctx : Context) (err : error)
  : M R unit :=
  emit (EvSpanRecordError s err).

(** [span.End()]. *)
Definition span_End {R} (s : Span) : M R unit := emit (EvSpanEnd s).

(** [log.WithError(err).Error(msg)]. *)
Definition log_Error {R} (err : error) (msg : string) : M R unit :=
  emit (EvLogError err msg).

(** [log.WithContext(ctx).WithFields(fields).Trace(msg)]. *)
Definition log_Trace {R} (ctx : Context) (fields : Fields) (msg : string)
  : M R unit :=
  emit (EvLogTrace ctx fields msg).

(** [NewClientTLSConfig(ctx, tls, vault)]. *)
Definition NewClientTLSConfig {R} (w : World) (ctx : Context)
    (tls : TLSConfig) (vault : VaultConfig) : M R (tls_Config + error) :=
  emit (EvNewClientTLSConfig ctx tls vault) ;;;
  ret (NewClientTLSConfig_result w ctx tls vault).

(** [LoadKey(ctx, key, vault, purpose)]. *)
Definition LoadKey {R} (w : World) (ctx : Context) (key : KeyConfig)
    (vault : VaultConfig) (purpose : string) : M R (list byte + error) :=
  emit (EvLoadKey ctx key vault purpose) ;;;
  ret (LoadKey_result w ctx key vault purpose).

(** [grpc.DialContext(ctx, target, opts...)]. *)
Definition grpc_DialContext {R} (w : World) (ctx : Context)
    (target : string) (opts : list DialOption) : M R (ClientConn + error) :=
  emit (EvDialContext ctx target opts) ;;;
  ret (DialContext_result w ctx target opts).

(** ** The bootstrap (src/unnamed/part_000) *)

(** The function literal of lines 71-83, applied to the context of an
    outgoing call. *)
Definition tokenProvider (w : World) (clo : TokenProviderClosure)
    (ctx : Context) : list Event * string :=
  let shared := captured_shared clo in
  let vault := captured_vault clo in
  func (
    '(ctx, span) <- tracer_Start ctx "TokenProvider" ;;
    defer (span_End span) (
      r <- LoadKey w ctx shared vault "secret" ;;
      match r with
      | inr err =>
          span_RecordError span ctx err ;;;
          log_Error err "client: could not load secret key" ;;;
          Return ""
      | inl s => Return (string_of_list_byte s)
      end)).

(** [ConnectContext] (lines 41-153). *)
Definition ConnectContext (w : World) (ctx : Context) (cfg : ClientConfig)
    (vault : VaultConfig) : list Event * (option ClientConn * option error) :=
  func (
    '(ctx, span) <- tracer_Start ctx "Connect" ;;
    defer (span_End span) (
      let opts : list DialOption := [] in
      if (String.length (GetURL cfg) =? 0)%nat then
        let err := errors_New "client: url required" in
        span_RecordError span ctx err ;;;
        Return (None, Some err)
      else
      let opts := opts ++ [WithUnaryInterceptor otelgrpc_UnaryClientInterceptor] in
      let opts :=
        opts ++ [WithStreamInterceptor otelgrpc_StreamClientInterceptor] in
      opts <-
        (if GetEnabled (GetTLS cfg) then
           r <- NewClientTLSConfig w ctx (GetTLS cfg) vault ;;
           match r with
           | inr err =>
               span_RecordError span ctx err ;;;
               Return (None,
                       Some (errors_Wrap err
                               "client: failed to get client TLS config"))
           | inl t =>
               ret (opts ++ [WithTransportCredentials (credentials_NewTLS t)])
           end
         else ret (opts ++ [WithInsecure])) ;;
      let shared := GetShared (GetToken cfg) in
      let opts :=
        if (0 <? String.length (GetID shared))%nat
           || (0 <? String.length (GetFile shared))%nat
           || (0 <? List.length (GetSecret shared))%nat
        then opts ++ [WithPerRPCCredentials (SharedContextCredentials
                        {| captured_shared := shared;
                           captured_vault := vault |})]
        else opts ++ [WithPerRPCCredentials ContextCredentials] in
      let opts :=
        if GetWriteBufferSize cfg >? 0
        then opts ++ [WithWriteBufferSize (GetWriteBufferSize cfg)]
        else opts in
      let opts :=
        if GetReadBufferSize cfg >? 0
        then opts ++ [WithReadBufferSize (GetReadBufferSize cfg)]
        else opts in
      let opts :=
        if GetInitialWindowSize cfg >? 0
        then opts ++ [WithInitialWindowSize (GetInitialWindowSize cfg)]
        else opts in
      let opts :=
        if GetInitialConnWindowSize cfg >? 0
        then opts ++ [WithInitialConnWindowSize
                        (GetInitialConnWindowSize cfg)]
        else opts in
      let opts :=
        if GetMaxCallRecvMsgSize cfg >? 0
        then opts ++ [WithDefaultCallOptions
                        [MaxCallRecvMsgSize (GetMaxCallRecvMsgSize cfg)]]
        else opts in
      let opts :=
        if GetMaxCallSendMsgSize cfg >? 0
        then opts ++ [WithDefaultCallOptions
                        [MaxCallSendMsgSize (GetMaxCallSendMsgSize cfg)]]
        else opts in
      let opts :=
        if GetMinConnectTimeout cfg >? 0
        then opts ++ [WithConnectParams
                        {| MinConnectTimeout := GetMinConnectTimeout cfg |}]
        else opts in
      let opts := if GetBlock cfg then opts ++ [WithBlock] else opts in
      let ctx :=
        if GetConnTimeout cfg >? 0
        then WithTimeout ctx (GetConnTimeout cfg)
        else ctx in
      let ua := Sprintf_s_slash_s version.Name version.Version in
      let ua :=
        if (0 <? String.length (GetUserAgent cfg))%nat
        then GetUserAgent cfg
        else ua in
      let opts := opts ++ [WithUserAgent ua] in
      log_Trace ctx
        [ ("url", FString (GetURL cfg));
          ("connTimeout", FInt (GetConnTimeout cfg));
          ("block", FBool (GetBlock cfg));
          ("initialConnWindowSize", FInt (GetInitialConnWindowSize cfg));
          ("initialWindowSize", FInt (GetInitialWindowSize cfg));
          ("maxCallRecvMsgSize", FInt (GetMaxCallRecvMsgSize cfg));
          ("maxCallSendMsgSize", FInt (GetMaxCallSendMsgSize cfg));
          ("minConnectTimeout", FInt (GetMinConnectTimeout cfg));
          ("readBufferSize", FInt (GetReadBufferSize cfg));
          ("userAgent", FString ua);
          ("writeBufferSize", FInt (GetWriteBufferSize cfg)) ]
        "dialling" ;;;
      r <- grpc_DialContext w ctx (GetURL cfg) opts ;;
      match r with
      | inr err =>
          span_RecordError span ctx err ;;;
          Return (None, Some err)
      | inl conn => Return (Some conn, None)
      end)).

(** [Connect] (lines 36-38). *)
Definition Connect (w : World) (cfg : ClientConfig) (vault : VaultConfig)
  : list Event * (option ClientConn * option error) :=
  ConnectContext w Background cfg vault.

(** ** Observations on traces and option lists *)

(** Keep what [f] selects, in order. *)
Fixpoint collect {A B} (f : A -> option B) (l : list A) : list B :=
  match l with
  | [] => []
  | x :: l' =>
      match f x with
      | Some y => y :: collect f l'
      | None => collect f l'
      end
  end.

Definition as_dial (e : Event) : option (Context * string * list DialOption) :=
  match e with
  | EvDialContext c u o => Some (c, u, o)
  | _ => None
  end.

Definition as_resolve (e : Event)
  : option (Context * TLSConfig * VaultConfig) :=
  match e with
  | EvNewClientTLSConfig c t v => Some (c, t, v)
  | _ => None
  end.

Definition as_load_key (e : Event)
  : option (Context * KeyConfig * VaultConfig * string) :=
  match e with
  | EvLoadKey c k v p => Some (c, k, v, p)
  | _ => None
  end.

Definition as_log_error (e : Event) : option (error * string) :=
  match e with
  | EvLogError err m => Some (err, m)
  | _ => None
  end.

(** The dial attempts, the resolver invocations and the secret lookups of a
    run. *)
Definition dials (t : list Event) := collect as_dial t.
Definition resolver_calls (t : list Event) := collect as_resolve t.
Definition load_key_calls (t : list Event) := collect as_load_key t.
Definition logged_errors (t : list Event) := collect as_log_error t.

Definition as_insecure (o : DialOption) : option unit :=
  match o with WithInsecure => Some tt | _ => None end.
Definition as_transport_credentials (o : DialOption)
  : option TransportCredentials :=
  match o with WithTransportCredentials c => Some c | _ => None end.
Definition as_per_rpc_credentials (o : DialOption)
  : option PerRPCCredentials :=
  match o with WithPerRPCCredentials c => Some c | _ => None end.
Definition as_write_buffer_size (o : DialOption) : option Z :=
  match o with WithWriteBufferSize n => Some n | _ => None end.
Definition as_read_buffer_size (o : DialOption) : option Z :=
  match o with WithReadBufferSize n => Some n | _ => None end.
Definition as_initial_window_size (o : DialOption) : option Z :=
  match o with WithInitialWindowSize n => Some n | _ => None end.
Definition as_initial_conn_window_size (o : DialOption) : option Z :=
  match o with WithInitialConnWindowSize n => Some n | _ => None end.
Definition as_recv_cap (co : CallOption) : option Z :=
  match co with MaxCallRecvMsgSize n => Some n | _ => None end.
Definition as_send_cap (co : CallOption) : option Z :=
  match co with MaxCallSendMsgSize n => Some n | _ => None end.
Definition as_max_recv_msg_size (o : DialOption) : option Z :=
  match o with
  | WithDefaultCallOptions cos => hd_error (collect as_recv_cap cos)
  | _ => None
  end.
Definition as_max_send_msg_size (o : DialOption) : option Z :=
  match o with
  | WithDefaultCallOptions cos => hd_error (collect as_send_cap cos)
  | _ => None
  end.
Definition as_min_connect_timeout (o : DialOption) : option Z :=
  match o with
  | WithConnectParams p => Some (MinConnectTimeout p)
  | _ => None
  end.
Definition as_user_agent (o : DialOption) : option string :=
  match o with WithUserAgent ua => Some ua | _ => None end.

(** [opt_if b o]: the option [o] when [b] holds, nothing otherwise. *)
Definition opt_if (b : bool) (o : DialOption) : list DialOption :=
  if b then [o] else [].

(** The seven tuning options and the block flag, in source order. *)
Definition tuning_opts (cfg : ClientConfig) : list DialOption :=
  opt_if (GetWriteBufferSize cfg >? 0)
         (WithWriteBufferSize (GetWriteBufferSize cfg))
  ++ opt_if (GetReadBufferSize cfg >? 0)
         (WithReadBufferSize (GetReadBufferSize cfg))
  ++ opt_if (GetInitialWindowSize cfg >? 0)
         (WithInitialWindowSize (GetInitialWindowSize cfg))
  ++ opt_if (GetInitialConnWindowSize cfg >? 0)
         (WithInitialConnWindowSize (GetInitialConnWindowSize cfg))
  ++ opt_if (GetMaxCallRecvMsgSize cfg >? 0)
         (WithDefaultCallOptions
            [MaxCallRecvMsgSize (GetMaxCallRecvMsgSize cfg)])
  ++ opt_if (GetMaxCallSendMsgSize cfg >? 0)
         (WithDefaultCallOptions
            [MaxCallSendMsgSize (GetMaxCallSendMsgSize cfg)])
  ++ opt_if (GetMinConnectTimeout cfg >? 0)
         (WithConnectParams
            {| MinConnectTimeout := GetMinConnectTimeout cfg |})
  ++ opt_if (GetBlock cfg) WithBlock.

(** The token source is a shared secret: one of id, file and inline secret
    is non-empty. *)
Definition is_shared_secret (k : KeyConfig) : bool :=
  negb ((String.length (GetID k) =? 0)%nat
        && (String.length (GetFile k) =? 0)%nat
        && (List.length (GetSecret k) =? 0)%nat).

Definition credentials_of (cfg : ClientConfig) (vault : VaultConfig)
  : PerRPCCredentials :=
  if is_shared_secret (GetShared (GetToken cfg))
  then SharedContextCredentials
         {| captured_shared := GetShared (GetToken cfg);
            captured_vault := vault |}
  else ContextCredentials.

Definition user_agent_of (cfg : ClientConfig) : string :=
  if (String.length (GetUserAgent cfg) =? 0)%nat
  then "orlop/0.0.0"
  else GetUserAgent cfg.

(** The option list in the order the bootstrap appends it, given the
    transport-security option [sec]. *)
Definition ordered_opts (cfg : ClientConfig) (vault : VaultConfig)
    (sec : DialOption) : list DialOption :=
  [WithUnaryInterceptor otelgrpc_UnaryClientInterceptor;
   WithStreamInterceptor otelgrpc_StreamClientInterceptor;
   sec;
   WithPerRPCCredentials (credentials_of cfg vault)]
  ++ tuning_opts cfg
  ++ [WithUserAgent (user_agent_of cfg)].

(** The context the dial receives, from the context [tracer.Start]
    returned. *)
Definition dial_ctx (sctx : Context) (cfg : ClientConfig) : Context :=
  if GetConnTimeout cfg >? 0
  then WithTimeout sctx (GetConnTimeout cfg)
  else sctx.

(** The fields of the trace-level record written before the dial. *)
Definition dialling_fields (cfg : ClientConfig) : Fields :=
  [ ("url", FString (GetURL cfg));
    ("connTimeout", FInt (GetConnTimeout cfg));
    ("block", FBool (GetBlock cfg));
    ("initialConnWindowSize", FInt (GetInitialConnWindowSize cfg));
    ("initialWindowSize", FInt (GetInitialWindowSize cfg));
    ("maxCallRecvMsgSize", FInt (GetMaxCallRecvMsgSize cfg));
    ("maxCallSendMsgSize", FInt (GetMaxCallSendMsgSize cfg));
    ("minConnectTimeout", FInt (GetMinConnectTimeout cfg));
    ("readBufferSize", FInt (GetReadBufferSize cfg));
    ("userAgent", FString (user_agent_of cfg));
    ("writeBufferSize", FInt (GetWriteBufferSize cfg)) ].

(** The span and the context [tracer.Start(ctx, "Connect")] returns. *)
Definition connect_span : Span := {| span_name := "Connect" |}.
Definition connect_ctx (ctx : Context) : Context := WithSpan ctx "Connect".

(** The transport-security step on the context [sctx]: the resolver call
    it makes, if any, and the option it appends or the error it stops on. *)
Definition security (w : World) (sctx : Context) (cfg : ClientConfig)
    (vault : VaultConfig) : list Event * (DialOption + error) :=
  if GetEnabled (GetTLS cfg)
  then ([EvNewClientTLSConfig sctx (GetTLS cfg) vault],
        match NewClientTLSConfig_result w sctx (GetTLS cfg) vault with
        | inl t => inl (WithTransportCredentials (credentials_NewTLS t))
        | inr err => inr err
        end)
  else ([], inl WithInsecure).

(** What the span records once the dialler has answered. *)
Definition dial_error_events (r : ClientConn + error) : list Event :=
  match r with
  | inl _ => []
  | inr err => [EvSpanRecordError connect_span err]
  end.

(** What the function returns once the dialler has answered. *)
Definition dial_outcome (r : ClientConn + error)
  : option ClientConn * option error :=
  match r with
  | inl conn => (Some conn, None)
  | inr err => (None, Some err)
  end.

(** *** Further observations *)

Definition as_block (o : DialOption) : option unit :=
  match o with WithBlock => Some tt | _ => None end.

Definition as_interceptor (o : DialOption) : option Interceptor :=
  match o with
  | WithUnaryInterceptor i => Some i
  | WithStreamInterceptor i => Some i
  | _ => None
  end.

Definition as_span_start (e : Event) : option string :=
  match e with EvSpanStart n => Some n | _ => None end.

Definition as_span_end (e : Event) : option Span :=
  match e with EvSpanEnd s => Some s | _ => None end.

Definition as_record_error (e : Event) : option (Span * error) :=
  match e with EvSpanRecordError s err => Some (s, err) | _ => None end.

Definition as_log_trace (e : Event) : option (Context * Fields * string) :=
  match e with EvLogTrace c f m => Some (c, f, m) | _ => None end.

(** The errors a run records on its span and the trace-level records it
    writes. *)
Definition recorded_errors (t : list Event) := collect as_record_error t.
Definition trace_logs (t : list Event) := collect as_log_trace t.

(** The value a [logrus.Fields] literal holds under a key. *)
Fixpoint field (k : string) (f : Fields) : option FieldValue :=
  match f with
  | [] => None
  | (k', v) :: f' => if (k' =? k)%string then Some v else field k f'
  end.

(** ** Sample inputs *)

Definition no_key : KeyConfig :=
  {| GetID := ""; GetFile := ""; GetSecret := [] |}.

Definition sample_vault : VaultConfig := {| GetAddress := "vault:8200" |}.

(** [{url: "svc:443", tls.enabled: false, token: contextual}]. *)
Definition plain_cfg : ClientConfig :=
  {| GetURL := "svc:443";
     GetTLS := {| GetEnabled := false; GetDescriptors := [] |};
     GetToken := {| GetShared := no_key |};
     GetWriteBufferSize := 0; GetReadBufferSize := 0;
     GetInitialWindowSize := 0; GetInitialConnWindowSize := 0;
     GetMaxCallRecvMsgSize := 0; GetMaxCallSendMsgSize := 0;
     GetMinConnectTimeout := 0; GetBlock := false;
     GetConnTimeout := 0; GetUserAgent := "" |}.

(** A world whose resolver yields [t], whose secret store fails and whose
    dialler connects. *)
Definition world_with (t : tls_Config) : World :=
  {| NewClientTLSConfig_result := fun _ _ _ => inl t;
     LoadKey_result := fun _ _ _ _ => inr (CollaboratorError "vault: sealed");
     DialContext_result := fun _ u _ => inl (Channel u 1) |}.

Definition sample_world : World := world_with (TLSMaterial "cert-A").

(** [plain_cfg] without a URL. *)
Definition no_url_cfg : ClientConfig :=
  {| GetURL := "";
     GetTLS := GetTLS plain_cfg; GetToken := GetToken plain_cfg;
     GetWriteBufferSize := 0; GetReadBufferSize := 0;
     GetInitialWindowSize := 0; GetInitialConnWindowSize := 0;
     GetMaxCallRecvMsgSize := 0; GetMaxCallSendMsgSize := 0;
     GetMinConnectTimeout := 0; GetBlock := false;
     GetConnTimeout := 0; GetUserAgent := "" |}.

Definition cert_key : KeyConfig :=
  {| GetID := "client-cert"; GetFile := ""; GetSecret := [] |}.

Definition tls_on : TLSConfig :=
  {| GetEnabled := true; GetDescriptors := [cert_key] |}.

(** [{url: "svc:443", tls.enabled: true, tls.secret: {...}}]. *)
Definition tls_cfg : ClientConfig :=
  {| GetURL := "svc:443";
     GetTLS := tls_on; GetToken := GetToken plain_cfg;
     GetWriteBufferSize := 0; GetReadBufferSize := 0;
     GetInitialWindowSize := 0; GetInitialConnWindowSize := 0;
     GetMaxCallRecvMsgSize := 0; GetMaxCallSendMsgSize := 0;
     GetMinConnectTimeout := 0; GetBlock := false;
     GetConnTimeout := 0; GetUserAgent := "" |}.

(** TLS enabled, but no URL. *)
Definition no_url_tls_cfg : ClientConfig :=
  {| GetURL := "";
     GetTLS := tls_on; GetToken := GetToken plain_cfg;
     GetWriteBufferSize := 0; GetReadBufferSize := 0;
     GetInitialWindowSize := 0; GetInitialConnWindowSize := 0;
     GetMaxCallRecvMsgSize := 0; GetMaxCallSendMsgSize := 0;
     GetMinConnectTimeout := 0; GetBlock := false;
     GetConnTimeout := 0; GetUserAgent := "" |}.

Definition token_key : KeyConfig :=
  {| GetID := ""; GetFile := "/run/secrets/token"; GetSecret := [] |}.

(** A shared-secret token source, tuning knobs of either sign, an overall
    connect timeout of one millisecond and a user-agent override. *)
Definition tuned_cfg : ClientConfig :=
  {| GetURL := "svc:443";
     GetTLS := GetTLS plain_cfg;
     GetToken := {| GetShared := token_key |};
     GetWriteBufferSize := 4096; GetReadBufferSize := 0;
     GetInitialWindowSize := 65535; GetInitialConnWindowSize := -1;
     GetMaxCallRecvMsgSize := 1048576; GetMaxCallSendMsgSize := 0;
     GetMinConnectTimeout := 5000000000; GetBlock := true;
     GetConnTimeout := 1000000; GetUserAgent := "probe/1.2" |}.

(** A tuning knob is opt-in by magnitude: of the options of its kind the
    list carries exactly the configured value when that is positive, and
    none when it is zero or negative. *)
Definition opt_in_by_magnitude (v : Z) (present : list Z) : Prop :=
  (0 < v -> present = [v]) /\ (v <= 0 -> present = []).

(** The transport-security step lets the run through: TLS is disabled, or
    the resolver answers with material. *)
Definition security_passes (w : World) (ctx : Context) (cfg : ClientConfig)
    (vault : VaultConfig) : Prop :=
  GetEnabled (GetTLS cfg) = false
  \/ exists t,
       NewClientTLSConfig_result w (connect_ctx ctx) (GetTLS cfg) vault
       = inl t.

(** A world whose resolver yields the material of [sample_world] and whose
    dialler refuses. *)
Definition world_dial_refused : World :=
  {| NewClientTLSConfig_result := NewClientTLSConfig_result sample_world;
     LoadKey_result := fun _ _ _ _ => inl [];
     DialContext_result :=
       fun _ _ _ => inr (CollaboratorError "dial: connection refused") |}.

(** A world whose secret store holds the two bytes "s3". *)
Definition world_with_secret : World :=
  {| NewClientTLSConfig_result := NewClientTLSConfig_result sample_world;
     LoadKey_result := fun _ _ _ _ => inl [x73; x33]%byte;
     DialContext_result := DialContext_result sample_world |}.

(** A world whose resolver fails. *)
Definition world_without_tls : World :=
  {| NewClientTLSConfig_result :=
       fun _ _ _ => inr (CollaboratorError "tls: no certificate");
     LoadKey_result := LoadKey_result sample_world;
     DialContext_result := DialContext_result sample_world |}.

Ltac run_body :=
  cbv beta iota zeta delta
    [bind ret Return emit func defer tracer_Start NewClientTLSConfig
     LoadKey grpc_DialContext log_Trace log_Error span_End span_RecordError
     fst snd].

(** ** The paths through [ConnectContext] *)

Lemma app_if {A} (b : bool) (l : list A) (x : A) :
  (if b then l ++ [x] else l) = l ++ (if b then [x] else []).
Proof. destruct b; [reflexivity | now rewrite app_nil_r]. Qed.

Lemma url_required w ctx cfg vault :
  String.length (GetURL cfg) = 0%nat ->
  ConnectContext w ctx cfg vault =
    ([EvSpanStart "Connect";
      EvSpanRecordError connect_span (errors_New "client: url required");
      EvSpanEnd connect_span],
     (None, Some (errors_New "client: url required"))).
Proof.
  intros H. unfold ConnectContext. rewrite H. reflexivity.
Qed.

Lemma resolver_failed w ctx cfg vault err :
  String.length (GetURL cfg) <> 0%nat ->
  snd (security w (connect_ctx ctx) cfg vault) = inr err ->
  ConnectContext w ctx cfg vault =
    ([EvSpanStart "Connect";
      EvNewClientTLSConfig (connect_ctx ctx) (GetTLS cfg) vault;
      EvSpanRecordError connect_span err;
      EvSpanEnd connect_span],
     (None,
      Some (errors_Wrap err "client: failed to get client TLS config"))).
Proof.
  intros Hu Hs. apply Nat.eqb_neq in Hu.
  unfold security, connect_ctx in Hs. unfold ConnectContext.
  rewrite Hu. cbn.
  destruct (GetEnabled (GetTLS cfg)); [| discriminate Hs].
  cbn in *.
  destruct (NewClientTLSConfig_result w _ _ vault); [discriminate Hs |].
  injection Hs as ->. reflexivity.
Qed.

Lemma pick_credentials cfg (v : VaultConfig) (l : list DialOption) :
  (if (0 <? String.length (GetID (GetShared (GetToken cfg))))%nat
      || (0 <? String.length (GetFile (GetShared (GetToken cfg))))%nat
      || (0 <? List.length (GetSecret (GetShared (GetToken cfg))))%nat
   then l ++ [WithPerRPCCredentials (SharedContextCredentials
                {| captured_shared := GetShared (GetToken cfg);
                   captured_vault := v |})]
   else l ++ [WithPerRPCCredentials ContextCredentials])
  = l ++ [WithPerRPCCredentials (credentials_of cfg v)].
Proof.
  unfold credentials_of, is_shared_secret.
  destruct (String.length (GetID _)), (String.length (GetFile _)),
    (List.length (GetSecret _)); reflexivity.
Qed.

Lemma pick_user_agent cfg :
  (if (0 <? String.length (GetUserAgent cfg))%nat
   then GetUserAgent cfg
   else Sprintf_s_slash_s version.Name version.Version)
  = user_agent_of cfg.
Proof.
  unfold user_agent_of. destruct (String.length (GetUserAgent cfg)); reflexivity.
Qed.

Lemma dialled w ctx cfg vault sec :
  String.length (GetURL cfg) <> 0%nat ->
  snd (security w (connect_ctx ctx) cfg vault) = inl sec ->
  let dctx := dial_ctx (connect_ctx ctx) cfg in
  let opts := ordered_opts cfg vault sec in
  let r := DialContext_result w dctx (GetURL cfg) opts in
  ConnectContext w ctx cfg vault =
    (EvSpanStart "Connect"
       :: fst (security w (connect_ctx ctx) cfg vault)
       ++ [EvLogTrace dctx (dialling_fields cfg) "dialling";
           EvDialContext dctx (GetURL cfg) opts]
       ++ dial_error_events r ++ [EvSpanEnd connect_span],
     dial_outcome r).
Proof.
  intros Hu Hs dctx opts r. apply Nat.eqb_neq in Hu.
  subst r opts dctx.
  unfold ConnectContext. rewrite Hu.
  unfold security, connect_ctx, connect_span, ordered_opts, tuning_opts,
    dialling_fields, opt_if in *.
  destruct (GetEnabled (GetTLS cfg)); cbn in Hs.
  - destruct (NewClientTLSConfig_result w _ _ vault) as [t | e] eqn:Hr;
      [injection Hs as <- | discriminate Hs].
    run_body. rewrite Hr. run_body.
    rewrite !pick_user_agent, !app_if, !pick_credentials, <- !app_assoc.
    fold (dial_ctx (WithSpan ctx "Connect") cfg).
    cbn [app].
    destruct (DialContext_result w _ _ _); reflexivity.
  - injection Hs as <-.
    run_body.
    rewrite !pick_user_agent, !app_if, !pick_credentials, <- !app_assoc.
    fold (dial_ctx (WithSpan ctx "Connect") cfg).
    cbn [app].
    destruct (DialContext_result w _ _ _); reflexivity.
Qed.

(** *** Reading the trace of a run *)

Lemma collect_app {A B} (f : A -> option B) (l1 l2 : list A) :
  collect f (l1 ++ l2) = collect f l1 ++ collect f l2.
Proof.
  induction l1 as [| x l1 IH]; cbn; [reflexivity |].
  destruct (f x); cbn; now rewrite IH.
Qed.

Lemma length_zero_empty (s : string) :
  String.length s = 0%nat <-> s = "".
Proof.
  destruct s; cbn; split; intros H; try reflexivity; discriminate H.
Qed.

(** The dial attempts of a run: none on the two early returns, one
    otherwise. *)
Lemma dials_none_without_url w ctx cfg vault :
  String.length (GetURL cfg) = 0%nat ->
  dials (fst (ConnectContext w ctx cfg vault)) = [].
Proof. intros H. now rewrite (url_required w ctx cfg vault H). Qed.

Lemma dials_none_on_resolver_error w ctx cfg vault err :
  String.length (GetURL cfg) <> 0%nat ->
  snd (security w (connect_ctx ctx) cfg vault) = inr err ->
  dials (fst (ConnectContext w ctx cfg vault)) = [].
Proof.
  intros Hu Hs. now rewrite (resolver_failed w ctx cfg vault err Hu Hs).
Qed.

Lemma dials_once w ctx cfg vault sec :
  String.length (GetURL cfg) <> 0%nat ->
  snd (security w (connect_ctx ctx) cfg vault) = inl sec ->
  dials (fst (ConnectContext w ctx cfg vault)) =
    [(dial_ctx (connect_ctx ctx) cfg, GetURL cfg,
      ordered_opts cfg vault sec)].
Proof.
  intros Hu Hs. rewrite (dialled w ctx cfg vault sec Hu Hs).
  cbn [fst]. unfold dials. cbn [collect as_dial].
  rewrite !collect_app. cbn [collect as_dial].
  unfold security.
  destruct (GetEnabled (GetTLS cfg)); cbn [fst collect as_dial app];
    destruct (DialContext_result w _ _ _); reflexivity.
Qed.

(** Every dial attempt of a run was made past both early returns, on the
    derived context, to the configured URL, with the ordered option list. *)
Lemma dials_inv w ctx cfg vault c u opts :
  In (c, u, opts) (dials (fst (ConnectContext w ctx cfg vault))) ->
  String.length (GetURL cfg) <> 0%nat
  /\ c = dial_ctx (connect_ctx ctx) cfg
  /\ u = GetURL cfg
  /\ exists sec,
       snd (security w (connect_ctx ctx) cfg vault) = inl sec
       /\ opts = ordered_opts cfg vault sec.
Proof.
  intros Hin.
  destruct (Nat.eq_dec (String.length (GetURL cfg)) 0) as [Hu | Hu].
  - rewrite (dials_none_without_url w ctx cfg vault Hu) in Hin.
    destruct Hin.
  - destruct (snd (security w (connect_ctx ctx) cfg vault))
      as [sec | err] eqn:Hs.
    + rewrite (dials_once w ctx cfg vault sec Hu Hs) in Hin.
      destruct Hin as [Heq | []]. injection Heq as <- <- <-.
      repeat split; try assumption. now exists sec.
    + rewrite (dials_none_on_resolver_error w ctx cfg vault err Hu Hs) in Hin.
      destruct Hin.
Qed.

(** The resolver invocations of a run. *)
Lemma resolver_calls_run w ctx cfg vault :
  resolver_calls (fst (ConnectContext w ctx cfg vault)) =
    if (String.length (GetURL cfg) =? 0)%nat then []
    else if GetEnabled (GetTLS cfg)
         then [(connect_ctx ctx, GetTLS cfg, vault)]
         else [].
Proof.
  destruct (Nat.eq_dec (String.length (GetURL cfg)) 0) as [Hu | Hu].
  - rewrite (url_required w ctx cfg vault Hu), Hu. reflexivity.
  - rewrite (proj2 (Nat.eqb_neq _ _) Hu).
    destruct (snd (security w (connect_ctx ctx) cfg vault))
      as [sec | err] eqn:Hs.
    + rewrite (dialled w ctx cfg vault sec Hu Hs). cbn [fst].
      unfold resolver_calls. cbn [collect as_resolve].
      rewrite !collect_app. unfold security.
      destruct (GetEnabled (GetTLS cfg)); cbn;
        destruct (DialContext_result w _ _ _); reflexivity.
    + rewrite (resolver_failed w ctx cfg vault err Hu Hs).
      unfold security in Hs.
      destruct (GetEnabled (GetTLS cfg)); [reflexivity | discriminate Hs].
Qed.

(** *** Reading the ordered option list *)

Lemma collect_opt_if {B} (f : DialOption -> option B) (b : bool)
    (o : DialOption) :
  collect f (opt_if b o) = if b then collect f [o] else [].
Proof. now destruct b. Qed.

Lemma if_same {A} (b : bool) (x : A) : (if b then x else x) = x.
Proof. now destruct b. Qed.

Ltac read_opts :=
  unfold ordered_opts, tuning_opts;
  rewrite ?collect_app, ?collect_opt_if;
  cbn -[Z.gtb]; rewrite ?if_same; cbn -[Z.gtb].

Lemma security_insecure w sctx cfg vault sec :
  GetEnabled (GetTLS cfg) = false ->
  snd (security w sctx cfg vault) = inl sec ->
  sec = WithInsecure.
Proof.
  unfold security. intros -> H. now injection H as <-.
Qed.

Lemma security_tls w sctx cfg vault sec :
  GetEnabled (GetTLS cfg) = true ->
  snd (security w sctx cfg vault) = inl sec ->
  exists t,
    NewClientTLSConfig_result w sctx (GetTLS cfg) vault = inl t
    /\ sec = WithTransportCredentials (credentials_NewTLS t).
Proof.
  unfold security. intros -> H. cbn in H.
  destruct (NewClientTLSConfig_result w sctx (GetTLS cfg) vault) as [t | e];
    [| discriminate H].
  injection H as <-. now exists t.
Qed.

Lemma security_cases w sctx cfg vault sec :
  snd (security w sctx cfg vault) = inl sec ->
  sec = WithInsecure
  \/ exists t, sec = WithTransportCredentials (credentials_NewTLS t).
Proof.
  intros Hs. destruct (GetEnabled (GetTLS cfg)) eqn:Hon.
  - right. destruct (security_tls _ _ _ _ _ Hon Hs) as (t & _ & ->).
    now exists t.
  - left. exact (security_insecure _ _ _ _ _ Hon Hs).
Qed.

Lemma security_passes_inl w ctx cfg vault :
  security_passes w ctx cfg vault ->
  exists sec, snd (security w (connect_ctx ctx) cfg vault) = inl sec.
Proof.
  unfold security. intros [Hoff | (t & Hr)].
  - rewrite Hoff. now eexists.
  - destruct (GetEnabled (GetTLS cfg)); cbn; [rewrite Hr |]; now eexists.
Qed.

Lemma url_not_empty cfg :
  GetURL cfg <> "" -> String.length (GetURL cfg) <> 0%nat.
Proof. intros Hurl H. apply Hurl. now apply length_zero_empty. Qed.

(** A configuration with a URL that passes the transport-security step is
    dialled, once, at its URL. *)
Lemma valid_configuration_dials w ctx cfg vault :
  GetURL cfg <> "" ->
  security_passes w ctx cfg vault ->
  exists c opts,
    dials (fst (ConnectContext w ctx cfg vault)) = [(c, GetURL cfg, opts)].
Proof.
  intros Hurl Hpass.
  destruct (security_passes_inl _ _ _ _ Hpass) as (sec & Hs).
  eexists _, _. apply (dials_once _ _ _ _ sec); [| exact Hs].
  now apply url_not_empty.
Qed.

(** The bootstrap itself never looks a secret up and never logs an error. *)
Lemma no_lookup_in_bootstrap w ctx cfg vault :
  load_key_calls (fst (ConnectContext w ctx cfg vault)) = []
  /\ logged_errors (fst (ConnectContext w ctx cfg vault)) = [].
Proof.
  destruct (Nat.eq_dec (String.length (GetURL cfg)) 0) as [Hu | Hu].
  - rewrite (url_required w ctx cfg vault Hu). split; reflexivity.
  - destruct (snd (security w (connect_ctx ctx) cfg vault))
      as [sec | err] eqn:Hs.
    + rewrite (dialled w ctx cfg vault sec Hu Hs). cbn [fst].
      unfold load_key_calls, logged_errors, security.
      destruct (GetEnabled (GetTLS cfg)); cbn;
        destruct (DialContext_result w _ _ _); split; reflexivity.
    + rewrite (resolver_failed w ctx cfg vault err Hu Hs).
      split; reflexivity.
Qed.

Lemma opt_in_by_magnitude_if (v : Z) :
  opt_in_by_magnitude v (if v >? 0 then [v] else []).
Proof.
  unfold opt_in_by_magnitude. destruct (Z.gtb_spec v 0); split; intros;
    try reflexivity; lia.
Qed.

(** ** The claims *)

(** C1: for every configuration whose URL is empty, [ConnectContext] (and
    so [Connect]) returns a nil channel together with the configuration
    error built from "client: url required", whose text ends in
    "url required", and the run makes no dial attempt (nor any resolver
    call). *)
Theorem C1_empty_url_fails_fast w ctx cfg vault :
  GetURL cfg = "" ->
  let err := errors_New "client: url required" in
  snd (ConnectContext w ctx cfg vault) = (None, Some err)
  /\ snd (Connect w cfg vault) = (None, Some err)
  /\ ends_with "url required" (error_text err) = true
  /\ dials (fst (ConnectContext w ctx cfg vault)) = []
  /\ dials (fst (Connect w cfg vault)) = []
  /\ resolver_calls (fst (ConnectContext w ctx cfg vault)) = [].
Proof.
  intros Hurl err. apply length_zero_empty in Hurl.
  unfold Connect.
  rewrite !(url_required w _ cfg vault Hurl).
  repeat split.
Qed.

Lemma C1_witness :
  snd (ConnectContext sample_world Background no_url_cfg sample_vault)
    = (None, Some (errors_New "client: url required"))
  /\ dials (fst (ConnectContext sample_world Background no_url_cfg
                   sample_vault)) = [].
Proof.
  pose proof (C1_empty_url_fails_fast sample_world Background no_url_cfg
                sample_vault eq_refl) as H.
  cbv zeta in H. split; [apply H | apply H].
Defined.

(** C2: for every configuration with the TLS-enabled flag false, the run
    never invokes the security resolver, every option list handed to the
    dial carries the insecure-transport option (once) and no transport
    credentials, and with a non-empty URL such a list is handed to the
    dial. *)
Theorem C2_tls_disabled_is_insecure w ctx cfg vault :
  GetEnabled (GetTLS cfg) = false ->
  let trace := fst (ConnectContext w ctx cfg vault) in
  resolver_calls trace = []
  /\ (forall c u opts,
        In (c, u, opts) (dials trace) ->
        In WithInsecure opts
        /\ collect as_insecure opts = [tt]
        /\ collect as_transport_credentials opts = [])
  /\ (GetURL cfg <> "" ->
      exists c opts, dials trace = [(c, GetURL cfg, opts)]).
Proof.
  intros Hoff trace. subst trace. split; [| split].
  - rewrite resolver_calls_run, Hoff. now destruct (_ =? _)%nat.
  - intros c u opts Hin.
    apply dials_inv in Hin as (_ & _ & _ & sec & Hs & ->).
    apply (security_insecure _ _ _ _ _ Hoff) in Hs as ->.
    split; [| split].
    + unfold ordered_opts. cbn. auto.
    + read_opts. reflexivity.
    + read_opts. reflexivity.
  - intros Hurl.
    assert (Hu : String.length (GetURL cfg) <> 0%nat)
      by (intros H; apply Hurl; now apply length_zero_empty).
    eexists _, _. apply dials_once; [exact Hu |].
    unfold security. rewrite Hoff. reflexivity.
Qed.

Lemma C2_witness :
  resolver_calls
    (fst (ConnectContext sample_world Background plain_cfg sample_vault)) = []
  /\ exists c opts,
       dials (fst (ConnectContext sample_world Background plain_cfg
                     sample_vault)) = [(c, "svc:443", opts)]
       /\ In WithInsecure opts.
Proof.
  pose proof (C2_tls_disabled_is_insecure sample_world Background plain_cfg
                sample_vault eq_refl) as H.
  cbv zeta in H. destruct H as (Hr & Hopts & Hdial).
  split; [exact Hr |].
  destruct (Hdial ltac:(discriminate)) as (c & opts & Hd).
  exists c, opts. split; [exact Hd |].
  apply (Hopts c "svc:443" opts). rewrite Hd. left. reflexivity.
Defined.

(** C3, as stated, fails on a configuration without URL: the bootstrap
    returns before the transport-security step, so with TLS enabled the
    resolver is invoked zero times, not once. *)
Lemma C3_counterexample_no_url :
  GetEnabled (GetTLS no_url_tls_cfg) = true
  /\ resolver_calls
       (fst (ConnectContext sample_world Background no_url_tls_cfg
               sample_vault)) = []
  /\ List.length
       (resolver_calls
          (fst (ConnectContext sample_world Background no_url_tls_cfg
                  sample_vault))) <> 1%nat.
Proof.
  split; [reflexivity |]. split; [reflexivity |]. cbn. discriminate.
Qed.

(** C3 (amended): for every configuration with a non-empty URL and the
    TLS-enabled flag true, the run invokes the security resolver exactly
    once, with the TLS settings of the configuration; if the resolver returns
    an error the bootstrap returns a nil channel and that error wrapped with
    "client: failed to get client TLS config" (a text that ends in
    "failed to get client TLS config") without dialling; otherwise it
    dials once, with an option list that carries the TLS transport
    credentials built from the resolver's material and no insecure option. *)
Theorem C3_tls_enabled_resolves_once w ctx cfg vault :
  GetURL cfg <> "" ->
  GetEnabled (GetTLS cfg) = true ->
  let run := ConnectContext w ctx cfg vault in
  resolver_calls (fst run) = [(connect_ctx ctx, GetTLS cfg, vault)]
  /\ match NewClientTLSConfig_result w (connect_ctx ctx) (GetTLS cfg) vault
     with
     | inr err =>
         let wrapped :=
           errors_Wrap err "client: failed to get client TLS config" in
         snd run = (None, Some wrapped)
         /\ ends_with "failed to get client TLS config" (error_text wrapped)
            = true
         /\ dials (fst run) = []
     | inl t =>
         exists c opts,
           dials (fst run) = [(c, GetURL cfg, opts)]
           /\ collect as_transport_credentials opts = [credentials_NewTLS t]
           /\ collect as_insecure opts = []
     end.
Proof.
  intros Hurl Hon run. subst run.
  assert (Hu : String.length (GetURL cfg) <> 0%nat)
    by (intros H; apply Hurl; now apply length_zero_empty).
  split.
  - rewrite resolver_calls_run, Hon.
    now rewrite (proj2 (Nat.eqb_neq _ _) Hu).
  - destruct (NewClientTLSConfig_result w (connect_ctx ctx) (GetTLS cfg) vault)
      as [t | err] eqn:Hr.
    + assert (Hs : snd (security w (connect_ctx ctx) cfg vault)
                   = inl (WithTransportCredentials (credentials_NewTLS t)))
        by (unfold security; rewrite Hon; cbn; now rewrite Hr).
      eexists _, _. split; [apply (dials_once _ _ _ _ _ Hu Hs) |].
      split; read_opts; reflexivity.
    + assert (Hs : snd (security w (connect_ctx ctx) cfg vault) = inr err)
        by (unfold security; rewrite Hon; cbn; now rewrite Hr).
      rewrite (resolver_failed _ _ _ _ _ Hu Hs). repeat split.
Qed.

Lemma C3_witness :
  resolver_calls
    (fst (ConnectContext world_without_tls Background tls_cfg sample_vault))
    = [(WithSpan Background "Connect", tls_on, sample_vault)]
  /\ snd (ConnectContext world_without_tls Background tls_cfg sample_vault)
     = (None,
        Some (errors_Wrap (CollaboratorError "tls: no certificate")
                "client: failed to get client TLS config")).
Proof.
  pose proof (C3_tls_enabled_resolves_once world_without_tls Background
                tls_cfg sample_vault ltac:(discriminate) eq_refl) as H.
  cbv zeta in H. destruct H as (Hcalls & Hres).
  split; [exact Hcalls | apply Hres].
Defined.

(** C4: in every option list handed to the dial exactly one per-call
    credential provider is attached, and which one is a function of the
    three fields of the token source: the contextual provider when id, file
    and inline secret are all empty, the shared-secret provider (closing over
    the token source and the vault) when any of them is non-empty.  A
    configuration with a URL that passes the transport-security step gets
    such a list. *)
Theorem C4_credential_provider_selection w ctx cfg vault :
  let trace := fst (ConnectContext w ctx cfg vault) in
  let shared := GetShared (GetToken cfg) in
  (forall c u opts,
      In (c, u, opts) (dials trace) ->
      exists cred,
        collect as_per_rpc_credentials opts = [cred]
        /\ (GetID shared = "" /\ GetFile shared = ""
            /\ GetSecret shared = [] ->
            cred = ContextCredentials)
        /\ (GetID shared <> "" \/ GetFile shared <> ""
            \/ GetSecret shared <> [] ->
            cred = SharedContextCredentials
                     {| captured_shared := shared;
                        captured_vault := vault |}))
  /\ (GetURL cfg <> "" ->
      security_passes w ctx cfg vault ->
      exists c opts, dials trace = [(c, GetURL cfg, opts)]).
Proof.
  intros trace shared. subst trace shared. split.
  - intros c u opts Hin.
    apply dials_inv in Hin as (_ & _ & _ & sec & Hs & ->).
    exists (credentials_of cfg vault). split; [| split].
    + unfold security in Hs.
      destruct (GetEnabled (GetTLS cfg)); cbn in Hs.
      * destruct (NewClientTLSConfig_result w _ _ vault);
          [injection Hs as <- | discriminate Hs].
        read_opts. reflexivity.
      * injection Hs as <-. read_opts. reflexivity.
    + intros (Hid & Hfile & Hsec).
      unfold credentials_of, is_shared_secret.
      now rewrite Hid, Hfile, Hsec.
    + intros Hany. unfold credentials_of, is_shared_secret.
      destruct (GetID _) eqn:Hid; [| reflexivity].
      destruct (GetFile _) eqn:Hfile; [| reflexivity].
      destruct (GetSecret _) eqn:Hsec; [| reflexivity].
      destruct Hany as [H | [H | H]]; now elim H.
  - intros Hurl Hsec.
    destruct (security_passes_inl _ _ _ _ Hsec) as (sec & Hs).
    eexists _, _. apply (dials_once _ _ _ _ sec); [| exact Hs].
    now apply url_not_empty.
Qed.

Lemma C4_witness :
  exists c opts,
    dials (fst (ConnectContext sample_world Background tuned_cfg
                  sample_vault)) = [(c, "svc:443", opts)]
    /\ collect as_per_rpc_credentials opts =
         [SharedContextCredentials
            {| captured_shared := token_key;
               captured_vault := sample_vault |}].
Proof.
  pose proof (C4_credential_provider_selection sample_world Background
                tuned_cfg sample_vault) as H.
  cbv zeta in H. destruct H as (Hsel & Hdial).
  destruct (Hdial ltac:(discriminate) (or_introl eq_refl))
    as (c & opts & Hd).
  exists c, opts. split; [exact Hd |].
  destruct (Hsel c "svc:443" opts) as (cred & Hone & _ & Hshared).
  - rewrite Hd. left. reflexivity.
  - rewrite Hone. f_equal. apply Hshared. right. left. discriminate.
Defined.

(** C5: whenever the secret lookup of a token fetch fails, the fetch logs
    the error (once, as "client: could not load secret key") and returns the
    empty string; and in the same world the bootstrap never looks the secret
    up, so for a configuration with a URL that passes the transport-security
    step the dial is attempted once and the bootstrap returns the channel
    the dial yields. *)
Theorem C5_lookup_failure_is_not_fatal w clo ctx err :
  LoadKey_result w (WithSpan ctx "TokenProvider") (captured_shared clo)
    (captured_vault clo) "secret" = inr err ->
  snd (tokenProvider w clo ctx) = ""
  /\ logged_errors (fst (tokenProvider w clo ctx))
     = [(err, "client: could not load secret key")]
  /\ forall ctx' cfg vault,
       load_key_calls (fst (ConnectContext w ctx' cfg vault)) = []
       /\ (GetURL cfg <> "" ->
           security_passes w ctx' cfg vault ->
           exists c opts,
             dials (fst (ConnectContext w ctx' cfg vault))
               = [(c, GetURL cfg, opts)]
             /\ forall conn,
                  DialContext_result w c (GetURL cfg) opts = inl conn ->
                  snd (ConnectContext w ctx' cfg vault) = (Some conn, None)).
Proof.
  intros Hfail. split; [| split].
  - unfold tokenProvider. run_body. now rewrite Hfail.
  - unfold tokenProvider. run_body. now rewrite Hfail.
  - intros ctx' cfg vault. split; [apply no_lookup_in_bootstrap |].
    intros Hurl Hpass. apply url_not_empty in Hurl.
    destruct (security_passes_inl _ _ _ _ Hpass) as (sec & Hs).
    eexists _, _. split; [apply (dials_once _ _ _ _ sec Hurl Hs) |].
    intros conn Hconn.
    rewrite (dialled w ctx' cfg vault sec Hurl Hs). cbn [snd].
    now rewrite Hconn.
Qed.

Lemma C5_witness :
  snd (tokenProvider sample_world
         {| captured_shared := token_key; captured_vault := sample_vault |}
         Background) = ""
  /\ snd (ConnectContext sample_world Background tuned_cfg sample_vault)
     = (Some (Channel "svc:443" 1), None).
Proof.
  pose proof (C5_lookup_failure_is_not_fatal sample_world
                {| captured_shared := token_key;
                   captured_vault := sample_vault |}
                Background (CollaboratorError "vault: sealed") eq_refl) as H.
  destruct H as (Hempty & _ & Hboot). split; [exact Hempty |].
  destruct (Hboot Background tuned_cfg sample_vault) as (_ & Hdial).
  destruct (Hdial ltac:(discriminate) (or_introl eq_refl))
    as (c & opts & _ & Hconn).
  apply Hconn. reflexivity.
Defined.

(** C6: every configuration with a URL that passes the transport-security
    step is dialled with an option list, and in every option list handed to
    the dial each of the seven tuning knobs (write buffer size, read buffer
    size, initial window size, initial connection window size, max receive
    message size, max send message size, minimum connect timeout) is opt-in
    by magnitude: its option is present, once and with exactly the configured
    value, when that value is strictly positive, and absent when it is zero
    or negative. *)
Theorem C6_tuning_is_opt_in_by_magnitude w ctx cfg vault :
  let trace := fst (ConnectContext w ctx cfg vault) in
  (forall c u opts,
      In (c, u, opts) (dials trace) ->
      opt_in_by_magnitude (GetWriteBufferSize cfg)
        (collect as_write_buffer_size opts)
      /\ opt_in_by_magnitude (GetReadBufferSize cfg)
           (collect as_read_buffer_size opts)
      /\ opt_in_by_magnitude (GetInitialWindowSize cfg)
           (collect as_initial_window_size opts)
      /\ opt_in_by_magnitude (GetInitialConnWindowSize cfg)
           (collect as_initial_conn_window_size opts)
      /\ opt_in_by_magnitude (GetMaxCallRecvMsgSize cfg)
           (collect as_max_recv_msg_size opts)
      /\ opt_in_by_magnitude (GetMaxCallSendMsgSize cfg)
           (collect as_max_send_msg_size opts)
      /\ opt_in_by_magnitude (GetMinConnectTimeout cfg)
           (collect as_min_connect_timeout opts))
  /\ (GetURL cfg <> "" ->
      security_passes w ctx cfg vault ->
      exists c opts, dials trace = [(c, GetURL cfg, opts)]).
Proof.
  intros trace. subst trace. split.
  - intros c u opts Hin.
    apply dials_inv in Hin as (_ & _ & _ & sec & Hs & ->).
    destruct (security_cases _ _ _ _ _ Hs) as [-> | (t & ->)];
      repeat split; read_opts; rewrite ?app_nil_r;
      apply opt_in_by_magnitude_if.
  - apply valid_configuration_dials.
Qed.

Lemma C6_witness :
  exists c opts,
    dials (fst (ConnectContext sample_world Background tuned_cfg
                  sample_vault)) = [(c, "svc:443", opts)]
    /\ collect as_write_buffer_size opts = [4096]
    /\ collect as_initial_conn_window_size opts = []
    /\ collect as_max_send_msg_size opts = [].
Proof.
  pose proof (C6_tuning_is_opt_in_by_magnitude sample_world Background
                tuned_cfg sample_vault) as H.
  cbv zeta in H. destruct H as (Hknobs & Hdial).
  destruct (Hdial ltac:(discriminate) (or_introl eq_refl))
    as (c & opts & Hd).
  exists c, opts. split; [exact Hd |].
  destruct (Hknobs c "svc:443" opts) as (Hw & _ & _ & Hcw & _ & Hsend & _).
  - rewrite Hd. left. reflexivity.
  - split; [| split].
    + apply Hw. reflexivity.
    + apply Hcw. discriminate.
    + apply Hsend. discriminate.
Defined.

(** C7: every valid configuration (one with a URL that passes the
    transport-security step) is dialled with an option list, and every
    option list handed to the dial carries exactly one user-agent option,
    appended last; its value is the configured override when that is
    non-empty and otherwise "<Name>/<Version>" of package [version], which is
    "orlop/0.0.0". *)
Theorem C7_user_agent w ctx cfg vault :
  let trace := fst (ConnectContext w ctx cfg vault) in
  let default := Sprintf_s_slash_s version.Name version.Version in
  default = "orlop/0.0.0"
  /\ (forall c u opts,
        In (c, u, opts) (dials trace) ->
        (GetUserAgent cfg <> "" ->
         collect as_user_agent opts = [GetUserAgent cfg]
         /\ last opts WithBlock = WithUserAgent (GetUserAgent cfg))
        /\ (GetUserAgent cfg = "" ->
            collect as_user_agent opts = [default]
            /\ last opts WithBlock = WithUserAgent default))
  /\ (GetURL cfg <> "" ->
      security_passes w ctx cfg vault ->
      exists c opts, dials trace = [(c, GetURL cfg, opts)]).
Proof.
  intros trace default. subst trace default.
  split; [reflexivity |]. split; [| apply valid_configuration_dials].
  intros c u opts Hin.
  apply dials_inv in Hin as (_ & _ & _ & sec & Hs & ->).
  assert (Hone : collect as_user_agent (ordered_opts cfg vault sec)
                 = [user_agent_of cfg]).
  { destruct (security_cases _ _ _ _ _ Hs) as [-> | (t & ->)];
      read_opts; reflexivity. }
  assert (Hlast : last (ordered_opts cfg vault sec) WithBlock
                  = WithUserAgent (user_agent_of cfg)).
  { unfold ordered_opts.
    change ([?a; ?b; ?c; ?d] ++ ?l) with ([a; b; c; d] ++ l).
    rewrite app_assoc. apply last_last. }
  rewrite Hone, Hlast. unfold user_agent_of.
  split; intros Hua.
  - destruct (GetUserAgent cfg); [now elim Hua | split; reflexivity].
  - rewrite Hua. split; reflexivity.
Qed.

Lemma C7_witness :
  exists c opts,
    dials (fst (ConnectContext sample_world Background plain_cfg
                  sample_vault)) = [(c, "svc:443", opts)]
    /\ collect as_user_agent opts = ["orlop/0.0.0"]
    /\ last opts WithBlock = WithUserAgent "orlop/0.0.0".
Proof.
  pose proof (C7_user_agent sample_world Background plain_cfg sample_vault)
    as H.
  cbv zeta in H. destruct H as (Hdefault & Hua & Hdial).
  destruct (Hdial ltac:(discriminate) (or_introl eq_refl))
    as (c & opts & Hd).
  exists c, opts. split; [exact Hd |].
  destruct (Hua c "svc:443" opts) as (_ & Hnone).
  - rewrite Hd. left. reflexivity.
  - rewrite <- Hdefault. apply Hnone. reflexivity.
Defined.

(** C8: every configuration with a URL that passes the transport-security
    step is dialled, and the context of every dial attempt derives from the
    context [tracer.Start] returned for the caller's: with a strictly
    positive overall connect timeout it is the child [context.WithTimeout]
    builds with that timeout, so the dial is bounded by the configured
    timeout; with a zero or negative one it is that context itself, with the
    caller's bound unchanged. *)
Theorem C8_connect_timeout w ctx cfg vault :
  let trace := fst (ConnectContext w ctx cfg vault) in
  (forall c u opts,
      In (c, u, opts) (dials trace) ->
      (0 < GetConnTimeout cfg ->
       c = WithTimeout (WithSpan ctx "Connect") (GetConnTimeout cfg)
       /\ exists b, timeout_bound c = Some b /\ b <= GetConnTimeout cfg)
      /\ (GetConnTimeout cfg <= 0 ->
          c = WithSpan ctx "Connect"
          /\ timeout_bound c = timeout_bound ctx))
  /\ (GetURL cfg <> "" ->
      security_passes w ctx cfg vault ->
      exists c opts, dials trace = [(c, GetURL cfg, opts)]).
Proof.
  intros trace. subst trace. split; [| apply valid_configuration_dials].
  intros c u opts Hin.
  apply dials_inv in Hin as (_ & -> & _ & _).
  unfold dial_ctx, connect_ctx.
  destruct (Z.gtb_spec (GetConnTimeout cfg) 0) as [Hpos | Hneg]; split;
    intros H; try lia.
  - split; [reflexivity |]. cbn.
    destruct (timeout_bound ctx) as [b |]; eexists; split;
      try reflexivity; lia.
  - split; reflexivity.
Qed.

Lemma C8_witness :
  exists c opts,
    dials (fst (ConnectContext sample_world Background tuned_cfg
                  sample_vault)) = [(c, "svc:443", opts)]
    /\ c = WithTimeout (WithSpan Background "Connect") 1000000
    /\ exists b, timeout_bound c = Some b /\ b <= 1000000.
Proof.
  pose proof (C8_connect_timeout sample_world Background tuned_cfg
                sample_vault) as H.
  cbv zeta in H. destruct H as (Hctx & Hdial).
  destruct (Hdial ltac:(discriminate) (or_introl eq_refl))
    as (c & opts & Hd).
  exists c, opts. split; [exact Hd |].
  destruct (Hctx c "svc:443" opts) as (Hpos & _).
  - rewrite Hd. left. reflexivity.
  - apply Hpos. reflexivity.
Defined.

(** C9, as stated, fails with TLS enabled: the transport-credentials option
    carries whatever material the resolver returned on that run, so two runs
    on the same configuration (same vault, same caller context) whose
    resolver answers differ produce different option lists. *)
Lemma C9_counterexample_resolver_material :
  dials (fst (ConnectContext (world_with (TLSMaterial "cert-A")) Background
                tls_cfg sample_vault))
    = [(WithSpan Background "Connect", "svc:443",
        [WithUnaryInterceptor otelgrpc_UnaryClientInterceptor;
         WithStreamInterceptor otelgrpc_StreamClientInterceptor;
         WithTransportCredentials (credentials_NewTLS (TLSMaterial "cert-A"));
         WithPerRPCCredentials ContextCredentials;
         WithUserAgent "orlop/0.0.0"])]
  /\ dials (fst (ConnectContext (world_with (TLSMaterial "cert-B"))
                   Background tls_cfg sample_vault))
     = [(WithSpan Background "Connect", "svc:443",
         [WithUnaryInterceptor otelgrpc_UnaryClientInterceptor;
          WithStreamInterceptor otelgrpc_StreamClientInterceptor;
          WithTransportCredentials
            (credentials_NewTLS (TLSMaterial "cert-B"));
          WithPerRPCCredentials ContextCredentials;
          WithUserAgent "orlop/0.0.0"])]
  /\ dials (fst (ConnectContext (world_with (TLSMaterial "cert-A"))
                   Background tls_cfg sample_vault))
     <> dials (fst (ConnectContext (world_with (TLSMaterial "cert-B"))
                      Background tls_cfg sample_vault)).
Proof.
  split; [reflexivity |]. split; [reflexivity |].
  cbn. intros H. discriminate H.
Qed.

(** C9 (amended): the option list handed to the dial is a deterministic
    function of the configuration, the vault configuration and, with TLS
    enabled, the material the security resolver returned: two runs on the
    same configuration and vault, in any two worlds and caller contexts
    whose resolver answers agree when TLS is enabled, hand the dial the same
    options in the same order, namely the two interceptors, then the
    transport-security option, then the per-call credentials, then the tuning
    options and the block flag in source order, then the user agent. *)
Theorem C9_option_list_is_deterministic
    w1 w2 ctx1 ctx2 cfg vault c1 u1 opts1 c2 u2 opts2 :
  In (c1, u1, opts1) (dials (fst (ConnectContext w1 ctx1 cfg vault))) ->
  In (c2, u2, opts2) (dials (fst (ConnectContext w2 ctx2 cfg vault))) ->
  (GetEnabled (GetTLS cfg) = true ->
   NewClientTLSConfig_result w1 (connect_ctx ctx1) (GetTLS cfg) vault
   = NewClientTLSConfig_result w2 (connect_ctx ctx2) (GetTLS cfg) vault) ->
  opts1 = opts2
  /\ exists sec cred ua,
       opts1 =
         [WithUnaryInterceptor otelgrpc_UnaryClientInterceptor;
          WithStreamInterceptor otelgrpc_StreamClientInterceptor;
          sec;
          WithPerRPCCredentials cred]
         ++ tuning_opts cfg
         ++ [WithUserAgent ua]
       /\ (sec = WithInsecure
           \/ exists t, sec = WithTransportCredentials (credentials_NewTLS t)).
Proof.
  intros Hin1 Hin2 Hagree.
  apply dials_inv in Hin1 as (_ & _ & _ & sec1 & Hs1 & ->).
  apply dials_inv in Hin2 as (_ & _ & _ & sec2 & Hs2 & ->).
  assert (Hsec : sec1 = sec2).
  { destruct (GetEnabled (GetTLS cfg)) eqn:Hon.
    - destruct (security_tls _ _ _ _ _ Hon Hs1) as (t1 & Hr1 & ->).
      destruct (security_tls _ _ _ _ _ Hon Hs2) as (t2 & Hr2 & ->).
      rewrite (Hagree eq_refl), Hr2 in Hr1. now injection Hr1 as ->.
    - rewrite (security_insecure _ _ _ _ _ Hon Hs1).
      now rewrite (security_insecure _ _ _ _ _ Hon Hs2). }
  subst sec2. split; [reflexivity |].
  exists sec1, (credentials_of cfg vault), (user_agent_of cfg).
  split; [reflexivity | exact (security_cases _ _ _ _ _ Hs1)].
Qed.

Lemma C9_witness :
  map snd (dials (fst (ConnectContext sample_world Background tls_cfg
                         sample_vault)))
  = map snd (dials (fst (ConnectContext world_dial_refused
                           (WithValue Background "token" "abc") tls_cfg
                           sample_vault))).
Proof.
  set (opts := ordered_opts tls_cfg sample_vault
                 (WithTransportCredentials
                    (credentials_NewTLS (TLSMaterial "cert-A")))).
  assert (H1 : dials (fst (ConnectContext sample_world Background tls_cfg
                             sample_vault))
               = [(WithSpan Background "Connect", "svc:443", opts)])
    by reflexivity.
  assert (H2 : dials (fst (ConnectContext world_dial_refused
                             (WithValue Background "token" "abc") tls_cfg
                             sample_vault))
               = [(WithSpan (WithValue Background "token" "abc") "Connect",
                   "svc:443", opts)])
    by reflexivity.
  rewrite H1, H2. cbn [map snd]. apply (f_equal (fun o => [o])).
  refine (proj1 (C9_option_list_is_deterministic
                   sample_world world_dial_refused
                   Background (WithValue Background "token" "abc")
                   tls_cfg sample_vault
                   _ "svc:443" opts _ "svc:443" opts _ _ _)).
  - rewrite H1. left. reflexivity.
  - rewrite H2. left. reflexivity.
  - intros _. reflexivity.
Defined.

(** C10: for every configuration and secret environment, [Connect] is
    [ConnectContext] on a fresh background context: the same channel, the
    same error and the same calls to the collaborators. *)
Theorem C10_Connect_uses_background_context w cfg vault :
  Connect w cfg vault = ConnectContext w Background cfg vault
  /\ fst (snd (Connect w cfg vault))
     = fst (snd (ConnectContext w Background cfg vault))
  /\ snd (snd (Connect w cfg vault))
     = snd (snd (ConnectContext w Background cfg vault)).
Proof. repeat split. Qed.

(** ** Further properties of the bootstrap *)

(** The three ways a run of [ConnectContext] ends. *)
Lemma run_cases w ctx cfg vault :
  let run := ConnectContext w ctx cfg vault in
  (String.length (GetURL cfg) = 0%nat
   /\ run =
        ([EvSpanStart "Connect";
          EvSpanRecordError connect_span (errors_New "client: url required");
          EvSpanEnd connect_span],
         (None, Some (errors_New "client: url required"))))
  \/ (String.length (GetURL cfg) <> 0%nat
      /\ exists err,
           snd (security w (connect_ctx ctx) cfg vault) = inr err
           /\ run =
                ([EvSpanStart "Connect";
                  EvNewClientTLSConfig (connect_ctx ctx) (GetTLS cfg) vault;
                  EvSpanRecordError connect_span err;
                  EvSpanEnd connect_span],
                 (None,
                  Some (errors_Wrap err
                          "client: failed to get client TLS config"))))
  \/ (String.length (GetURL cfg) <> 0%nat
      /\ exists sec,
           snd (security w (connect_ctx ctx) cfg vault) = inl sec
           /\ run =
                (EvSpanStart "Connect"
                   :: fst (security w (connect_ctx ctx) cfg vault)
                   ++ [EvLogTrace (dial_ctx (connect_ctx ctx) cfg)
                         (dialling_fields cfg) "dialling";
                       EvDialContext (dial_ctx (connect_ctx ctx) cfg)
                         (GetURL cfg) (ordered_opts cfg vault sec)]
                   ++ dial_error_events
                        (DialContext_result w (dial_ctx (connect_ctx ctx) cfg)
                           (GetURL cfg) (ordered_opts cfg vault sec))
                   ++ [EvSpanEnd connect_span],
                 dial_outcome
                   (DialContext_result w (dial_ctx (connect_ctx ctx) cfg)
                      (GetURL cfg) (ordered_opts cfg vault sec)))).
Proof.
  intros run. subst run.
  destruct (Nat.eq_dec (String.length (GetURL cfg)) 0) as [Hu | Hu].
  - left. split; [exact Hu | now apply url_required].
  - right.
    destruct (snd (security w (connect_ctx ctx) cfg vault))
      as [sec | err] eqn:Hs.
    + right. split; [exact Hu |]. exists sec. split; [reflexivity |].
      now apply dialled.
    + left. split; [exact Hu |]. exists err. split; [reflexivity |].
      now apply resolver_failed.
Qed.

Lemma security_trace w sctx cfg vault :
  fst (security w sctx cfg vault) =
    if GetEnabled (GetTLS cfg)
    then [EvNewClientTLSConfig sctx (GetTLS cfg) vault]
    else [].
Proof. unfold security. now destruct (GetEnabled (GetTLS cfg)). Qed.

Lemma collect_In {A B} (f : A -> option B) (l : list A) (x : A) (y : B) :
  In x l -> f x = Some y -> In y (collect f l).
Proof.
  intros Hin Hf. induction l as [| a l IH]; [destruct Hin |].
  cbn. destruct Hin as [-> | Hin].
  - rewrite Hf. now left.
  - destruct (f a); [right |]; now apply IH.
Qed.

Ltac run_cases_of w ctx cfg vault :=
  destruct (run_cases w ctx cfg vault)
    as [(Hu & Hrun) | [(Hu & rerr & Hs & Hrun) | (Hu & sec & Hs & Hrun)]];
  [ rewrite ?(dials_none_without_url w ctx cfg vault Hu)
  | rewrite ?(dials_none_on_resolver_error w ctx cfg vault rerr Hu Hs)
  | rewrite ?(dials_once w ctx cfg vault sec Hu Hs) ];
  rewrite ?Hrun; clear Hrun; cbn [fst snd].

(** X1: a channel comes back only from a successful dial: when [ConnectContext]
    returns a channel, the error is nil, the run dialled exactly once, to the
    configured URL, and the channel is the one the dial yielded. *)
Theorem channel_comes_from_the_dial w ctx cfg vault conn :
  fst (snd (ConnectContext w ctx cfg vault)) = Some conn ->
  snd (snd (ConnectContext w ctx cfg vault)) = None
  /\ exists c opts,
       dials (fst (ConnectContext w ctx cfg vault)) = [(c, GetURL cfg, opts)]
       /\ DialContext_result w c (GetURL cfg) opts = inl conn.
Proof.
  run_cases_of w ctx cfg vault; try discriminate.
  intros Hconn.
  destruct (DialContext_result w _ _ _) as [conn' | e] eqn:Hr;
    cbn in Hconn; [| discriminate Hconn].
  injection Hconn as ->. split; [reflexivity |].
  eexists _, _. split; [reflexivity | exact Hr].
Qed.

Lemma channel_comes_from_the_dial_witness :
  exists c opts,
    dials (fst (ConnectContext sample_world Background plain_cfg
                  sample_vault)) = [(c, "svc:443", opts)]
    /\ DialContext_result sample_world c "svc:443" opts
       = inl (Channel "svc:443" 1).
Proof.
  exact (proj2 (channel_comes_from_the_dial sample_world Background
                  plain_cfg sample_vault (Channel "svc:443" 1) eq_refl)).
Defined.

(** X2: the errors of [ConnectContext]: whenever it returns an error the channel
    is nil, and the error is the URL error (URL empty), or the resolver's
    error wrapped (URL set, TLS enabled), or the error of the one dial the
    run made, returned as it is. *)
Theorem error_taxonomy w ctx cfg vault err :
  snd (snd (ConnectContext w ctx cfg vault)) = Some err ->
  fst (snd (ConnectContext w ctx cfg vault)) = None
  /\ ((GetURL cfg = "" /\ err = errors_New "client: url required")
      \/ (GetURL cfg <> "" /\ GetEnabled (GetTLS cfg) = true
          /\ exists cause,
               NewClientTLSConfig_result w (connect_ctx ctx) (GetTLS cfg)
                 vault = inr cause
               /\ err = errors_Wrap cause
                          "client: failed to get client TLS config")
      \/ (exists c opts,
            dials (fst (ConnectContext w ctx cfg vault))
              = [(c, GetURL cfg, opts)]
            /\ DialContext_result w c (GetURL cfg) opts = inr err)).
Proof.
  run_cases_of w ctx cfg vault; intros Herr.
  - injection Herr as <-. split; [reflexivity |]. left.
    split; [now apply length_zero_empty | reflexivity].
  - injection Herr as <-. split; [reflexivity |]. right. left.
    split; [intros H; apply Hu; now apply length_zero_empty |].
    unfold security in Hs.
    destruct (GetEnabled (GetTLS cfg)); [| discriminate Hs].
    split; [reflexivity |]. exists rerr. cbn in Hs.
    destruct (NewClientTLSConfig_result w _ _ vault); [discriminate Hs |].
    injection Hs as ->. split; reflexivity.
  - destruct (DialContext_result w _ _ _) as [conn | e] eqn:Hr;
      cbn in Herr; [discriminate Herr |].
    injection Herr as ->. split; [reflexivity |]. right. right.
    eexists _, _. split; [reflexivity | exact Hr].
Qed.

Lemma error_taxonomy_witness :
  dials (fst (ConnectContext world_dial_refused Background plain_cfg
                sample_vault)) <> []
  /\ fst (snd (ConnectContext world_dial_refused Background plain_cfg
                 sample_vault)) = None.
Proof.
  destruct (error_taxonomy world_dial_refused Background plain_cfg
              sample_vault (CollaboratorError "dial: connection refused")
              eq_refl) as (Hnil & _).
  split; [discriminate | exact Hnil].
Defined.

(** X3: exactly one of channel and error is nil, on every run. *)
Theorem channel_xor_error w ctx cfg vault :
  fst (snd (ConnectContext w ctx cfg vault)) = None
  <-> snd (snd (ConnectContext w ctx cfg vault)) <> None.
Proof.
  run_cases_of w ctx cfg vault.
  - split; [discriminate | reflexivity].
  - split; [discriminate | reflexivity].
  - destruct (DialContext_result w _ _ _); cbn; split; intros H;
      try discriminate; try reflexivity; now elim H.
Qed.

(** X4: no retry: a run dials at most once, only to the configured URL and never
    to an empty target, and writes exactly one "dialling" record per dial. *)
Theorem dials_at_most_once w ctx cfg vault :
  let trace := fst (ConnectContext w ctx cfg vault) in
  (List.length (dials trace) <= 1)%nat
  /\ List.length (trace_logs trace) = List.length (dials trace)
  /\ Forall (fun d => snd (fst d) = GetURL cfg /\ snd (fst d) <> "")
       (dials trace).
Proof.
  intros trace. subst trace.
  run_cases_of w ctx cfg vault.
  - repeat split; auto.
  - repeat split; auto.
  - split; [cbn; lia |]. split.
    + unfold trace_logs. cbn [collect as_log_trace].
      rewrite security_trace, !collect_app.
      destruct (GetEnabled (GetTLS cfg)); cbn;
        destruct (DialContext_result w _ _ _); reflexivity.
    + constructor; [| constructor]. cbn. split; [reflexivity |].
      intros H. apply Hu. now rewrite H.
Qed.

(** X5: the "Connect" span brackets every run: it is started first and ended
    last, on each of the three ways out, and nothing in between starts or
    ends a span. *)
Theorem span_brackets_the_run w ctx cfg vault :
  exists mid,
    fst (ConnectContext w ctx cfg vault)
      = EvSpanStart "Connect" :: mid ++ [EvSpanEnd connect_span]
    /\ collect as_span_start mid = []
    /\ collect as_span_end mid = [].
Proof.
  run_cases_of w ctx cfg vault.
  - exists [EvSpanRecordError connect_span
              (errors_New "client: url required")].
    repeat split.
  - exists [EvNewClientTLSConfig (connect_ctx ctx) (GetTLS cfg) vault;
            EvSpanRecordError connect_span rerr].
    repeat split.
  - eexists. split.
    + f_equal. rewrite !app_assoc. reflexivity.
    + rewrite security_trace, !collect_app.
      destruct (GetEnabled (GetTLS cfg));
        destruct (DialContext_result w _ _ _); split; reflexivity.
Qed.

(** X6: the span records an error exactly when the run returns one, and what it
    records is the cause: the returned error itself, or, on the TLS path,
    the resolver's error before it is wrapped. *)
Theorem span_records_the_cause w ctx cfg vault :
  let run := ConnectContext w ctx cfg vault in
  match snd (snd run) with
  | None => recorded_errors (fst run) = []
  | Some err =>
      exists cause,
        recorded_errors (fst run) = [(connect_span, cause)]
        /\ (cause = err
            \/ err = errors_Wrap cause
                       "client: failed to get client TLS config")
  end.
Proof.
  intros run. subst run.
  run_cases_of w ctx cfg vault.
  - eexists. split; [reflexivity | now left].
  - eexists. split; [reflexivity | now right].
  - unfold recorded_errors. cbn [collect as_record_error].
    rewrite security_trace, !collect_app.
    destruct (DialContext_result w _ _ _) as [conn | e]; cbn [dial_outcome snd].
    + destruct (GetEnabled (GetTLS cfg)); reflexivity.
    + exists e. split; [| now left].
      destruct (GetEnabled (GetTLS cfg)); reflexivity.
Qed.

(** X7: the "dialling" record describes the dial that follows it: it is written
    on the dial's context immediately before the one dial of the run, its
    url field is the dial target, its userAgent field is the value of the
    user-agent option dialled with, and its block and connTimeout fields are
    the configured ones. *)
Theorem dialling_record_matches_the_dial w ctx cfg vault c fields msg :
  In (c, fields, msg) (trace_logs (fst (ConnectContext w ctx cfg vault))) ->
  msg = "dialling"
  /\ exists pre post opts ua,
       fst (ConnectContext w ctx cfg vault)
         = pre ++ EvLogTrace c fields msg
               :: EvDialContext c (GetURL cfg) opts :: post
       /\ dials (fst (ConnectContext w ctx cfg vault))
          = [(c, GetURL cfg, opts)]
       /\ field "url" fields = Some (FString (GetURL cfg))
       /\ field "userAgent" fields = Some (FString ua)
       /\ collect as_user_agent opts = [ua]
       /\ field "block" fields = Some (FBool (GetBlock cfg))
       /\ field "connTimeout" fields = Some (FInt (GetConnTimeout cfg)).
Proof.
  run_cases_of w ctx cfg vault; try (intros []).
  assert (Hua : collect as_user_agent (ordered_opts cfg vault sec)
                = [user_agent_of cfg]).
  { destruct (security_cases _ _ _ _ _ Hs) as [-> | (t & ->)];
      read_opts; reflexivity. }
  unfold trace_logs. rewrite security_trace.
  destruct (GetEnabled (GetTLS cfg));
    destruct (DialContext_result w _ _ _); cbn;
    intros [Heq | []]; injection Heq as <- <- <-;
    (split; [reflexivity |]).
  - exists [EvSpanStart "Connect";
            EvNewClientTLSConfig (connect_ctx ctx) (GetTLS cfg) vault].
    exists [EvSpanEnd connect_span], (ordered_opts cfg vault sec),
      (user_agent_of cfg).
    repeat split. exact Hua.
  - exists [EvSpanStart "Connect";
            EvNewClientTLSConfig (connect_ctx ctx) (GetTLS cfg) vault].
    eexists [_; EvSpanEnd connect_span], (ordered_opts cfg vault sec),
      (user_agent_of cfg).
    repeat split. exact Hua.
  - exists [EvSpanStart "Connect"].
    exists [EvSpanEnd connect_span], (ordered_opts cfg vault sec),
      (user_agent_of cfg).
    repeat split. exact Hua.
  - exists [EvSpanStart "Connect"].
    eexists [_; EvSpanEnd connect_span], (ordered_opts cfg vault sec),
      (user_agent_of cfg).
    repeat split. exact Hua.
Qed.

Lemma dialling_record_matches_the_dial_witness :
  field "userAgent" (dialling_fields tuned_cfg) = Some (FString "probe/1.2")
  /\ collect as_user_agent (ordered_opts tuned_cfg sample_vault WithInsecure)
     = ["probe/1.2"].
Proof.
  assert (Hin : In (dial_ctx (connect_ctx Background) tuned_cfg,
                    dialling_fields tuned_cfg, "dialling")
                   (trace_logs (fst (ConnectContext sample_world Background
                                       tuned_cfg sample_vault))))
    by (left; reflexivity).
  destruct (dialling_record_matches_the_dial _ _ _ _ _ _ _ Hin)
    as (_ & pre & post & opts & ua & _ & Hd & _ & Hua & Hopt & _).
  injection Hd as <-. injection Hua as <-.
  split; [reflexivity | exact Hopt].
Defined.

(** *** The option list *)

(** X8: instrumentation is unconditional: every option list handed to the dial
    starts with the otelgrpc unary interceptor and then the otelgrpc stream
    interceptor, and carries no other interceptor option. *)
Theorem interceptors_come_first w ctx cfg vault c u opts :
  In (c, u, opts) (dials (fst (ConnectContext w ctx cfg vault))) ->
  exists rest,
    opts = WithUnaryInterceptor otelgrpc_UnaryClientInterceptor
           :: WithStreamInterceptor otelgrpc_StreamClientInterceptor
           :: rest
    /\ collect as_interceptor rest = [].
Proof.
  intros Hin.
  apply dials_inv in Hin as (_ & _ & _ & sec & Hs & ->).
  eexists. split; [reflexivity |].
  destruct (security_cases _ _ _ _ _ Hs) as [-> | (t & ->)];
    cbn [app collect as_interceptor]; read_opts; reflexivity.
Qed.

Lemma interceptors_come_first_witness :
  exists rest,
    ordered_opts tuned_cfg sample_vault WithInsecure
    = WithUnaryInterceptor otelgrpc_UnaryClientInterceptor
      :: WithStreamInterceptor otelgrpc_StreamClientInterceptor
      :: rest
    /\ collect as_interceptor rest = [].
Proof.
  apply (interceptors_come_first sample_world Background tuned_cfg
           sample_vault (dial_ctx (connect_ctx Background) tuned_cfg)
           "svc:443").
  left. reflexivity.
Defined.

(** X9: block-until-ready follows the flag: the option list handed to the dial
    carries [WithBlock] once when the block flag is set and not at all when
    it is clear. *)
Theorem block_follows_the_flag w ctx cfg vault c u opts :
  In (c, u, opts) (dials (fst (ConnectContext w ctx cfg vault))) ->
  collect as_block opts = if GetBlock cfg then [tt] else [].
Proof.
  intros Hin.
  apply dials_inv in Hin as (_ & _ & _ & sec & Hs & ->).
  destruct (security_cases _ _ _ _ _ Hs) as [-> | (t & ->)];
    read_opts; now rewrite app_nil_r.
Qed.

Lemma block_follows_the_flag_witness :
  collect as_block (ordered_opts tuned_cfg sample_vault WithInsecure) = [tt]
  /\ collect as_block (ordered_opts plain_cfg sample_vault WithInsecure) = [].
Proof.
  split.
  - apply (block_follows_the_flag sample_world Background tuned_cfg
             sample_vault (dial_ctx (connect_ctx Background) tuned_cfg)
             "svc:443").
    left. reflexivity.
  - apply (block_follows_the_flag sample_world Background plain_cfg
             sample_vault (dial_ctx (connect_ctx Background) plain_cfg)
             "svc:443").
    left. reflexivity.
Defined.

(** X10: exactly one transport-security option is handed to the dial, in third
    place: the insecure option when TLS is disabled, transport credentials
    when it is enabled, never both and never neither. *)
Theorem one_transport_security_option w ctx cfg vault c u opts :
  In (c, u, opts) (dials (fst (ConnectContext w ctx cfg vault))) ->
  if GetEnabled (GetTLS cfg)
  then collect as_insecure opts = []
       /\ exists t,
            NewClientTLSConfig_result w (connect_ctx ctx) (GetTLS cfg) vault
            = inl t
            /\ collect as_transport_credentials opts = [credentials_NewTLS t]
            /\ nth_error opts 2
               = Some (WithTransportCredentials (credentials_NewTLS t))
  else collect as_insecure opts = [tt]
       /\ collect as_transport_credentials opts = []
       /\ nth_error opts 2 = Some WithInsecure.
Proof.
  intros Hin.
  apply dials_inv in Hin as (_ & _ & _ & sec & Hs & ->).
  destruct (GetEnabled (GetTLS cfg)) eqn:Hon.
  - destruct (security_tls _ _ _ _ _ Hon Hs) as (t & Hr & ->).
    split; [read_opts; reflexivity |].
    exists t. split; [exact Hr |]. split; [read_opts |]; reflexivity.
  - rewrite (security_insecure _ _ _ _ _ Hon Hs).
    split; [| split]; [read_opts | read_opts |]; reflexivity.
Qed.

Lemma one_transport_security_option_witness :
  collect as_insecure
    (ordered_opts tls_cfg sample_vault
       (WithTransportCredentials (credentials_NewTLS (TLSMaterial "cert-A"))))
  = [].
Proof.
  assert (Hin : In (dial_ctx (connect_ctx Background) tls_cfg, "svc:443",
                    ordered_opts tls_cfg sample_vault
                      (WithTransportCredentials
                         (credentials_NewTLS (TLSMaterial "cert-A"))))
                   (dials (fst (ConnectContext sample_world Background
                                  tls_cfg sample_vault))))
    by (left; reflexivity).
  exact (proj1 (one_transport_security_option _ _ _ _ _ _ _ Hin)).
Defined.

Lemma opt_if_length (b : bool) (o : DialOption) :
  (List.length (opt_if b o) <= 1)%nat.
Proof. destruct b; cbn; lia. Qed.

(** X11: the option list handed to the dial has at least five options (two
    interceptors, transport security, per-call credentials, user agent) and
    at most thirteen (seven tuning knobs and the block flag on top). *)
Theorem option_count_bounds w ctx cfg vault c u opts :
  In (c, u, opts) (dials (fst (ConnectContext w ctx cfg vault))) ->
  (5 <= List.length opts <= 13)%nat.
Proof.
  intros Hin.
  apply dials_inv in Hin as (_ & _ & _ & sec & _ & ->).
  unfold ordered_opts, tuning_opts. rewrite !length_app. cbn [List.length].
  repeat match goal with
         | |- context [List.length (opt_if ?b ?o)] =>
             pose proof (opt_if_length b o);
             generalize dependent (List.length (opt_if b o)); intros
         end.
  lia.
Qed.

Lemma option_count_bounds_witness :
  (5 <= List.length (ordered_opts tuned_cfg sample_vault WithInsecure)
   <= 13)%nat.
Proof.
  apply (option_count_bounds sample_world Background tuned_cfg sample_vault
           (dial_ctx (connect_ctx Background) tuned_cfg) "svc:443").
  left. reflexivity.
Defined.

(** *** Contexts and timeouts *)

(** X12: the overall connect timeout does not cover the transport-security step:
    a run calls the resolver at most once, on the context [tracer.Start]
    returned, whose bound is the caller's whatever the configured connect
    timeout, and with the TLS settings and the vault it was given. *)
Theorem resolver_is_not_bounded_by_the_connect_timeout w ctx cfg vault :
  let calls := resolver_calls (fst (ConnectContext w ctx cfg vault)) in
  (List.length calls <= 1)%nat
  /\ Forall (fun call =>
               call = (WithSpan ctx "Connect", GetTLS cfg, vault)
               /\ timeout_bound (fst (fst call)) = timeout_bound ctx)
       calls.
Proof.
  intros calls. subst calls. rewrite resolver_calls_run.
  destruct (_ =? _)%nat; [split; [cbn; lia | constructor] |].
  destruct (GetEnabled (GetTLS cfg)); split; cbn; try lia;
    repeat constructor.
Qed.

(** X13: the dial never outlives the caller's deadline: when the caller's context
    carries a bound, the bound of the dial's context is at most that, whatever
    the configured connect timeout; when it carries none, the dial's bound is
    the configured timeout if that is positive and otherwise there is no
    bound at all. *)
Theorem dial_keeps_the_callers_deadline w ctx cfg vault c u opts :
  In (c, u, opts) (dials (fst (ConnectContext w ctx cfg vault))) ->
  match timeout_bound ctx with
  | Some b =>
      exists b', timeout_bound c = Some b' /\ b' <= b
                 /\ (GetConnTimeout cfg <= 0 -> b' = b)
  | None =>
      timeout_bound c =
        if GetConnTimeout cfg >? 0 then Some (GetConnTimeout cfg) else None
  end.
Proof.
  intros Hin.
  apply dials_inv in Hin as (_ & -> & _ & _).
  unfold dial_ctx, connect_ctx.
  destruct (Z.gtb_spec (GetConnTimeout cfg) 0) as [Hpos | Hneg]; cbn;
    destruct (timeout_bound ctx) as [b |]; try reflexivity.
  - eexists. split; [reflexivity |]. lia.
  - eexists. split; [reflexivity |]. lia.
Qed.

Lemma dial_keeps_the_callers_deadline_witness :
  exists b',
    timeout_bound
      (dial_ctx (connect_ctx (WithTimeout Background 500)) tuned_cfg)
    = Some b'
    /\ b' <= 500.
Proof.
  assert (Hin : In (dial_ctx (connect_ctx (WithTimeout Background 500))
                      tuned_cfg, "svc:443",
                    ordered_opts tuned_cfg sample_vault WithInsecure)
                   (dials (fst (ConnectContext sample_world
                                  (WithTimeout Background 500) tuned_cfg
                                  sample_vault))))
    by (left; reflexivity).
  destruct (dial_keeps_the_callers_deadline _ _ _ _ _ _ _ Hin)
    as (b' & Hb & Hle & _).
  exists b'. split; [exact Hb | exact Hle].
Defined.

(** X14: [Connect] dials without any deadline unless a connect timeout is
    configured: its dial context is bounded by exactly the configured
    timeout when that is positive, and unbounded otherwise. *)
Theorem Connect_deadline w cfg vault c u opts :
  In (c, u, opts) (dials (fst (Connect w cfg vault))) ->
  (0 < GetConnTimeout cfg -> timeout_bound c = Some (GetConnTimeout cfg))
  /\ (GetConnTimeout cfg <= 0 -> timeout_bound c = None).
Proof.
  unfold Connect. intros Hin.
  apply dials_inv in Hin as (_ & -> & _ & _).
  unfold dial_ctx, connect_ctx.
  destruct (Z.gtb_spec (GetConnTimeout cfg) 0) as [Hpos | Hneg]; split;
    intros H; try reflexivity; lia.
Qed.

Lemma Connect_deadline_witness :
  timeout_bound (dial_ctx (connect_ctx Background) plain_cfg) = None
  /\ timeout_bound (dial_ctx (connect_ctx Background) tuned_cfg)
     = Some 1000000.
Proof.
  split.
  - refine (proj2 (Connect_deadline sample_world plain_cfg sample_vault
                     _ "svc:443"
                     (ordered_opts plain_cfg sample_vault WithInsecure) _) _).
    + left. reflexivity.
    + discriminate.
  - refine (proj1 (Connect_deadline sample_world tuned_cfg sample_vault
                     _ "svc:443"
                     (ordered_opts tuned_cfg sample_vault WithInsecure) _) _).
    + left. reflexivity.
    + reflexivity.
Defined.

(** *** The token provider *)

(** X15: no caching: every invocation of the token provider opens a
    "TokenProvider" span on the call's context, looks the captured key up in
    the captured vault exactly once, for the purpose "secret", closes the
    span last, and neither dials nor resolves TLS. *)
Theorem token_provider_looks_up_each_time w clo ctx :
  let trace := fst (tokenProvider w clo ctx) in
  load_key_calls trace
    = [(WithSpan ctx "TokenProvider", captured_shared clo,
        captured_vault clo, "secret")]
  /\ (exists mid,
        trace = EvSpanStart "TokenProvider" :: mid
                  ++ [EvSpanEnd {| span_name := "TokenProvider" |}])
  /\ dials trace = []
  /\ resolver_calls trace = [].
Proof.
  intros trace. subst trace. unfold tokenProvider. run_body.
  destruct (LoadKey_result w _ _ _ _) as [s | err].
  - split; [reflexivity |]. split; [| split; reflexivity].
    exists [EvLoadKey (WithSpan ctx "TokenProvider") (captured_shared clo)
              (captured_vault clo) "secret"].
    reflexivity.
  - split; [reflexivity |]. split; [| split; reflexivity].
    eexists [EvLoadKey (WithSpan ctx "TokenProvider") (captured_shared clo)
               (captured_vault clo) "secret"; _; _].
    reflexivity.
Qed.

(** X16: when the lookup succeeds the token is the secret's bytes as a string,
    byte for byte, and nothing is logged or recorded as an error. *)
Theorem token_is_the_secret w clo ctx s :
  LoadKey_result w (WithSpan ctx "TokenProvider") (captured_shared clo)
    (captured_vault clo) "secret" = inl s ->
  snd (tokenProvider w clo ctx) = string_of_list_byte s
  /\ list_byte_of_string (snd (tokenProvider w clo ctx)) = s
  /\ logged_errors (fst (tokenProvider w clo ctx)) = []
  /\ recorded_errors (fst (tokenProvider w clo ctx)) = [].
Proof.
  intros Hok. unfold tokenProvider. run_body. rewrite Hok.
  split; [reflexivity |]. split; [| split; reflexivity].
  apply list_byte_of_string_of_list_byte.
Qed.

Lemma token_is_the_secret_witness :
  snd (tokenProvider world_with_secret
         {| captured_shared := token_key; captured_vault := sample_vault |}
         Background) = "s3".
Proof.
  exact (proj1 (token_is_the_secret world_with_secret
                  {| captured_shared := token_key;
                     captured_vault := sample_vault |}
                  Background [x73; x33]%byte eq_refl)).
Defined.

Lemma string_of_list_byte_empty (s : list byte) :
  string_of_list_byte s = "" -> s = [].
Proof. destruct s; [reflexivity | discriminate]. Qed.

(** X17: an empty token is ambiguous: the token provider returns the empty string
    exactly when the lookup failed or the secret it found is empty. *)
Theorem empty_token_iff w clo ctx :
  snd (tokenProvider w clo ctx) = ""
  <-> (exists err,
         LoadKey_result w (WithSpan ctx "TokenProvider") (captured_shared clo)
           (captured_vault clo) "secret" = inr err)
      \/ LoadKey_result w (WithSpan ctx "TokenProvider") (captured_shared clo)
           (captured_vault clo) "secret" = inl [].
Proof.
  unfold tokenProvider. run_body.
  destruct (LoadKey_result w _ _ _ _) as [s | err]; split.
  - intros H. right. f_equal. now apply string_of_list_byte_empty.
  - intros [(e & H) | H]; [discriminate H |]. now injection H as ->.
  - intros _. left. now exists err.
  - reflexivity.
Qed.

(** X18: the provider the bootstrap attaches looks up the configured token
    source: whenever a shared-secret provider is among the options handed to
    the dial, each later invocation of its token fetch, in any world and on
    any call context, looks up the configuration's shared key in the vault
    the bootstrap was given. *)
Theorem attached_provider_reads_the_configured_key
    w ctx cfg vault c u opts clo w' ctx' :
  In (c, u, opts) (dials (fst (ConnectContext w ctx cfg vault))) ->
  In (WithPerRPCCredentials (SharedContextCredentials clo)) opts ->
  load_key_calls (fst (tokenProvider w' clo ctx'))
    = [(WithSpan ctx' "TokenProvider", GetShared (GetToken cfg), vault,
        "secret")].
Proof.
  intros Hin Hcred.
  apply dials_inv in Hin as (_ & _ & _ & sec & Hs & ->).
  assert (Hone : collect as_per_rpc_credentials (ordered_opts cfg vault sec)
                 = [credentials_of cfg vault]).
  { destruct (security_cases _ _ _ _ _ Hs) as [-> | (t & ->)];
      read_opts; reflexivity. }
  apply (collect_In as_per_rpc_credentials _ _
           (SharedContextCredentials clo)) in Hcred; [| reflexivity].
  rewrite Hone in Hcred. destruct Hcred as [Heq | []].
  unfold credentials_of in Heq.
  destruct (is_shared_secret _); [| discriminate Heq].
  injection Heq as <-.
  unfold tokenProvider. run_body.
  destruct (LoadKey_result w' _ _ _ _); reflexivity.
Qed.

Lemma attached_provider_reads_the_configured_key_witness :
  load_key_calls
    (fst (tokenProvider world_with_secret
            {| captured_shared := token_key; captured_vault := sample_vault |}
            (WithValue Background "rpc" "1")))
  = [(WithSpan (WithValue Background "rpc" "1") "TokenProvider", token_key,
      sample_vault, "secret")].
Proof.
  apply (attached_provider_reads_the_configured_key sample_world Background
           tuned_cfg sample_vault
           (dial_ctx (connect_ctx Background) tuned_cfg) "svc:443"
           (ordered_opts tuned_cfg sample_vault WithInsecure)).
  - left. reflexivity.
  - right. right. right. left. reflexivity.
Defined.

(** *** Package version *)

(** X19: with the generated constants [String] always takes the prerelease
    branch: on every platform it is "0.0.0-dev" followed by the operating
    system, the architecture and the Go version, separated by single
    spaces. *)
Theorem version_String_format (GOOS GOARCH runtime_Version : string) :
  version.String GOOS GOARCH runtime_Version
  = ("0.0.0-dev " ++ GOOS ++ " " ++ GOARCH ++ " " ++ runtime_Version)%string
  /\ String.prefix "0.0.0-dev " (version.String GOOS GOARCH runtime_Version)
     = true.
Proof.
  split; [reflexivity |].
  apply prefix_correct. cbn.
  match goal with
  | |- context [substring 0 0 ?s] => now destruct s
  end.
Qed.
